(** * UserService: the account service of user_management

    A shallow embedding of [app/services/user_service.py].  The service is a
    set of class methods that run against an SQLAlchemy [AsyncSession]; here
    the session, the wall clock and the email collaborator form one explicit
    [World], and every method is a computation in a state-and-exception
    monad over it.  Awaiting a coroutine is sequential composition: the
    service never spawns a task. *)

From Stdlib Require Import ZArith List String Ascii Bool Lia Btauto.
From stdpp Require Import gmap strings.
Import ListNotations.

Local Open Scope string_scope.
Local Open Scope Z_scope.

(** ** Data model *)

(** [uuid.UUID]: an opaque identifier. *)
Definition UUID := N.

(** [datetime]: microseconds on the UTC time line. *)
Definition datetime := Z.

(** Modelled from the spec: [app.models.user_model.UserRole] is not part of
    the sources at hand; the data model lists the roles. *)
Inductive UserRole := ANONYMOUS | AUTHENTICATED | MANAGER | ADMIN.

Definition UserRole_eqb (a b : UserRole) : bool :=
  match a, b with
  | ANONYMOUS, ANONYMOUS | AUTHENTICATED, AUTHENTICATED
  | MANAGER, MANAGER | ADMIN, ADMIN => true
  | _, _ => false
  end.

(** The name of an enumeration member, which is what the [role] column is
    compared with in a query. *)
Definition UserRole_name (r : UserRole) : string :=
  match r with
  | ANONYMOUS => "ANONYMOUS"
  | AUTHENTICATED => "AUTHENTICATED"
  | MANAGER => "MANAGER"
  | ADMIN => "ADMIN"
  end.

(** Modelled from the spec: [app.models.user_model.User] is not part of the
    sources at hand; these are the attributes of the Account entity that the
    service reads or writes. *)
Module User.
Record t := mk {
  id : UUID;
  email : string;
  nickname : string;
  first_name : option string;
  last_name : option string;
  hashed_password : string;
  role : UserRole;
  is_professional : bool;
  email_verified : bool;
  verification_token : option string;
  is_locked : bool;
  failed_login_attempts : Z;
  last_login_at : option datetime;
  created_at : datetime
}.

(** Attribute assignments [user.x = v]. *)
Definition set_hashed_password (v : string) (u : t) : t :=
  mk (id u) (email u) (nickname u) (first_name u) (last_name u) v (role u)
     (is_professional u) (email_verified u) (verification_token u)
     (is_locked u) (failed_login_attempts u) (last_login_at u) (created_at u).

Definition set_role (v : UserRole) (u : t) : t :=
  mk (id u) (email u) (nickname u) (first_name u) (last_name u)
     (hashed_password u) v (is_professional u) (email_verified u)
     (verification_token u) (is_locked u) (failed_login_attempts u)
     (last_login_at u) (created_at u).

Definition set_email_verified (v : bool) (u : t) : t :=
  mk (id u) (email u) (nickname u) (first_name u) (last_name u)
     (hashed_password u) (role u) (is_professional u) v
     (verification_token u) (is_locked u) (failed_login_attempts u)
     (last_login_at u) (created_at u).

Definition set_verification_token (v : option string) (u : t) : t :=
  mk (id u) (email u) (nickname u) (first_name u) (last_name u)
     (hashed_password u) (role u) (is_professional u) (email_verified u) v
     (is_locked u) (failed_login_attempts u) (last_login_at u) (created_at u).

Definition set_is_locked (v : bool) (u : t) : t :=
  mk (id u) (email u) (nickname u) (first_name u) (last_name u)
     (hashed_password u) (role u) (is_professional u) (email_verified u)
     (verification_token u) v (failed_login_attempts u) (last_login_at u)
     (created_at u).

Definition set_failed_login_attempts (v : Z) (u : t) : t :=
  mk (id u) (email u) (nickname u) (first_name u) (last_name u)
     (hashed_password u) (role u) (is_professional u) (email_verified u)
     (verification_token u) (is_locked u) v (last_login_at u) (created_at u).

Definition set_last_login_at (v : option datetime) (u : t) : t :=
  mk (id u) (email u) (nickname u) (first_name u) (last_name u)
     (hashed_password u) (role u) (is_professional u) (email_verified u)
     (verification_token u) (is_locked u) (failed_login_attempts u) v
     (created_at u).
End User.

(** Modelled from the spec: [app.schemas.user_schemas.UserCreate] is not part
    of the sources at hand; this is the record [model_dump()] returns for an
    accepted input: email, password and nickname (generated when absent),
    the role and the profile fields. *)
Module UserCreate.
Record t := mk {
  email : string;
  nickname : string;
  password : string;
  first_name : option string;
  last_name : option string;
  role : UserRole
}.
End UserCreate.

(** The rows of [UserResponse] that [search_users] builds. *)
Module UserResponse.
Record t := mk {
  id : UUID;
  email : string;
  nickname : string;
  is_professional : bool;
  role : UserRole;
  registration_date : datetime;
  account_status : string
}.
End UserResponse.

(** ** The persistence gateway *)

(** Exceptions the service can see. *)
Inductive exn :=
| SQLAlchemyError
| ValidationError
| ValueError (msg : string).

Inductive outcome (A : Type) :=
| Ok (a : A)
| Raise (e : exn).
Arguments Ok {A} a.
Arguments Raise {A} e.

(** One round trip to the database: whether it raises, and how long it
    takes. *)
Record Trip := { fails : bool; took : N }.

(** What the unit of work holds between [add]/[delete] and [commit]. *)
Inductive Change :=
| Added (u : User.t)
| Deleted (u : User.t).

Inductive LogLevel := ERROR | INFO.

(** The world a service call runs in.  [rows] is the committed users table in
    storage order; [pending] the changes staged in the session; [trips] the
    behaviour of the coming round trips ([[]]: all succeed at once);
    [outbox] the verification emails queued through the email collaborator. *)
Record World := {
  rows : list User.t;
  pending : list Change;
  trips : list Trip;
  clock : datetime;
  next_uuid : UUID;
  rollbacks : nat;
  outbox : list (UUID * option string);
  log : list LogLevel
}.

Definition M (A : Type) : Type := World -> outcome A * World.

Definition ret {A} (a : A) : M A := fun w => (Ok a, w).

Definition bind {A B} (m : M A) (k : A -> M B) : M B :=
  fun w =>
    match m w with
    | (Ok a, w') => k a w'
    | (Raise e, w') => (Raise e, w')
    end.

Definition raise {A} (e : exn) : M A := fun w => (Raise e, w).

(** [try: m except e: h e], where [h] answers [None] for the exceptions the
    [except] clauses do not name. *)
Definition try_except {A} (m : M A) (h : exn -> option (M A)) : M A :=
  fun w =>
    match m w with
    | (Ok a, w') => (Ok a, w')
    | (Raise e, w') =>
        match h e with
        | Some k => k w'
        | None => (Raise e, w')
        end
    end.

Declare Scope svc_scope.
Delimit Scope svc_scope with svc.
Notation "x <- m ;; k" := (bind m (fun x => k))
  (at level 100, m at next level, right associativity) : svc_scope.
Notation "m ;;; k" := (bind m (fun _ => k))
  (at level 100, right associativity) : svc_scope.
Local Open Scope svc_scope.

Definition logger (l : LogLevel) : M unit :=
  fun w => (Ok tt,
            {| rows := rows w; pending := pending w; trips := trips w;
               clock := clock w; next_uuid := next_uuid w;
               rollbacks := rollbacks w; outbox := outbox w;
               log := l :: log w |}).

(** [datetime.now(timezone.utc)]. *)
Definition datetime_now : M datetime := fun w => (Ok (clock w), w).

(** A round trip consumes the head of the script and lets its time pass. *)
Definition round_trip : M unit :=
  fun w =>
    match trips w with
    | [] => (Ok tt, w)
    | t :: ts =>
        let w' := {| rows := rows w; pending := pending w; trips := ts;
                     clock := clock w + Z.of_N (took t);
                     next_uuid := next_uuid w; rollbacks := rollbacks w;
                     outbox := outbox w; log := log w |} in
        if fails t then (Raise SQLAlchemyError, w') else (Ok tt, w')
    end.

(** Writing one staged change to the table.  An added object whose primary
    key is already stored overwrites that row in place; a new one is
    appended. *)
Fixpoint upsert (u : User.t) (l : list User.t) : list User.t :=
  match l with
  | [] => [u]
  | x :: l' => if N.eqb (User.id x) (User.id u) then u :: l'
               else x :: upsert u l'
  end.

Definition remove (u : User.t) (l : list User.t) : list User.t :=
  List.filter (fun x => negb (N.eqb (User.id x) (User.id u))) l.

Definition flush (l : list User.t) (c : Change) : list User.t :=
  match c with
  | Added u => upsert u l
  | Deleted u => remove u l
  end.

(** [session.add(obj)] and [session.delete(obj)] only stage the change. *)
Definition session_add (u : User.t) : M unit :=
  fun w => (Ok tt,
            {| rows := rows w; pending := pending w ++ [Added u];
               trips := trips w; clock := clock w; next_uuid := next_uuid w;
               rollbacks := rollbacks w; outbox := outbox w; log := log w |}).

Definition session_delete (u : User.t) : M unit :=
  fun w => (Ok tt,
            {| rows := rows w; pending := pending w ++ [Deleted u];
               trips := trips w; clock := clock w; next_uuid := next_uuid w;
               rollbacks := rollbacks w; outbox := outbox w; log := log w |}).

(** [session.commit()]: a round trip that, when it succeeds, writes the staged
    changes; when it raises, the table is as before. *)
Definition session_commit : M unit :=
  round_trip ;;;
  fun w => (Ok tt,
            {| rows := fold_left flush (pending w) (rows w); pending := [];
               trips := trips w; clock := clock w; next_uuid := next_uuid w;
               rollbacks := rollbacks w; outbox := outbox w; log := log w |}).

(** [session.rollback()] drops the staged changes. *)
Definition session_rollback : M unit :=
  fun w => (Ok tt,
            {| rows := rows w; pending := []; trips := trips w;
               clock := clock w; next_uuid := next_uuid w;
               rollbacks := S (rollbacks w); outbox := outbox w;
               log := log w |}).

(** The statements the service builds. *)
Inductive Query :=
| Select (where_ : User.t -> bool) (offset limit : option nat)
| SelectCount.

Inductive Result :=
| Rows (l : list User.t)
| Scalar (n : Z).

Definition window (offset limit : option nat) (l : list User.t) : list User.t :=
  let l1 := match offset with Some k => skipn k l | None => l end in
  match limit with Some k => firstn k l1 | None => l1 end.

Definition run_query (q : Query) (table : list User.t) : Result :=
  match q with
  | Select p off lim => Rows (window off lim (List.filter p table))
  | SelectCount => Scalar (Z.of_nat (List.length table))
  end.

(** [session.execute(query)]. *)
Definition session_execute (q : Query) : M Result :=
  round_trip ;;;
  fun w => (Ok (run_query q (rows w)), w).

(** [result.scalars().first()], [result.scalars().all()], [result.scalar()]. *)
Definition scalars_first (r : Result) : option User.t :=
  match r with
  | Rows (u :: _) => Some u
  | _ => None
  end.

Definition scalars_all (r : Result) : list User.t :=
  match r with
  | Rows l => l
  | Scalar _ => []
  end.

Definition scalar (r : Result) : Z :=
  match r with
  | Scalar n => n
  | Rows l => Z.of_nat (List.length l)
  end.

(** ** Letter case *)

(** The letters A-Z lowered, byte by byte.  This is neither [func.lower] nor
    Python's [str.lower()], which are collaborators of the service below; it
    serves to say that two ASCII strings differ in letter case only, and to
    build sample collaborators. *)
Definition ascii_lower (c : ascii) : ascii :=
  let n := N_of_ascii c in
  if (N.leb 65 n && N.leb n 90)%bool then ascii_of_N (n + 32) else c.

Fixpoint lower_ascii (s : string) : string :=
  match s with
  | EmptyString => EmptyString
  | String c s' => String (ascii_lower c) (lower_ascii s')
  end.

(** ** Python's [str] operations *)

(** Truth value of an [Optional[str]] argument: [None] and [""] are false. *)
Definition truthy (o : option string) : bool :=
  match o with
  | Some s => negb (String.eqb s "")
  | None => false
  end.

(** [query.filter(p)]: one more conjunct. *)
Definition filter_ (q p : User.t -> bool) : User.t -> bool :=
  fun u => (q u && p u)%bool.

(** Comparison of a nullable column with a value: NULL matches nothing. *)
Definition column_eqb (f : string -> string) (c : option string) (v : string) : bool :=
  match c with
  | Some x => String.eqb (f x) (f v)
  | None => false
  end.

(** ** The email collaborator *)

(** [app.services.email_service.EmailService], as far as the service could
    use it: queueing a verification email for an account. *)
Record EmailService := {
  send_verification_email : User.t -> M unit
}.

Definition queue_verification_email (u : User.t) : M unit :=
  fun w => (Ok tt,
            {| rows := rows w; pending := pending w; trips := trips w;
               clock := clock w; next_uuid := next_uuid w;
               rollbacks := rollbacks w;
               outbox := (User.id u, User.verification_token u) :: outbox w;
               log := log w |}).

Definition outbox_email_service : EmailService :=
  {| send_verification_email := queue_verification_email |}.

(** ** The service *)

Section UserService.

(** [UserCreate(user_data).model_dump()]; [None] stands for the schema's
    ValidationError. *)
Variable UserCreate_model_dump : gmap string string -> option UserCreate.t.

(** [app.utils.security]: the credential collaborator. *)
Variable hash_password : string -> string.
Variable verify_password : string -> string -> bool.
Variable generate_verification_token : M string.

(** [settings.max_login_attempts]. *)
Variable max_login_attempts : Z.

(** [func.lower], evaluated by the database. *)
Variable sql_lower : string -> string.

(** [str.lower()], Python's built-in.  It follows the Unicode case mapping,
    which is not part of the sources: it lowers more than the letters A-Z
    (the Kelvin sign U+212A becomes k, for one).  Nothing is assumed of it. *)
Variable str_lower : string -> string.

Definition _execute_query (query : Query) : M (option Result) :=
  try_except
    (result <- session_execute query ;;
     session_commit ;;;
     ret (Some result))
    (fun e =>
       match e with
       | SQLAlchemyError =>
           Some (logger ERROR ;;; session_rollback ;;; ret None)
       | _ => None
       end).

(** [select(User).filter_by(filters)], first row. *)
Definition _fetch_user (filters : User.t -> bool) : M (option User.t) :=
  result <- _execute_query (Select filters None None) ;;
  ret (match result with
       | Some r => scalars_first r
       | None => None
       end).

Definition get_by_id (user_id : UUID) : M (option User.t) :=
  _fetch_user (fun u => N.eqb (User.id u) user_id).

Definition get_by_nickname (nickname : string) : M (option User.t) :=
  _fetch_user (fun u => String.eqb (User.nickname u) nickname).

Definition get_by_email (email : string) : M (option User.t) :=
  _fetch_user (fun u => String.eqb (User.email u) email).

(** [User(validated_data)]: the columns not given take the model's
    defaults; the primary key and the creation time come from the column
    defaults as well. *)
Definition User_init (d : UserCreate.t) (hashed_password : string) : M User.t :=
  fun w =>
    (Ok (User.mk (next_uuid w) (UserCreate.email d) (UserCreate.nickname d)
                 (UserCreate.first_name d) (UserCreate.last_name d)
                 hashed_password (UserCreate.role d) false false None false
                 0 None (clock w)),
     {| rows := rows w; pending := pending w; trips := trips w;
        clock := clock w; next_uuid := N.succ (next_uuid w);
        rollbacks := rollbacks w; outbox := outbox w; log := log w |}).

Definition create (user_data : gmap string string)
           (email_service : EmailService) : M (option User.t) :=
  try_except
    (match UserCreate_model_dump user_data with
     | None => raise ValidationError
     | Some validated_data =>
         by_email <- get_by_email (UserCreate.email validated_data) ;;
         match by_email with
         | Some _ => raise (ValueError "User with given email already exists.")
         | None =>
             by_nickname <- get_by_nickname (UserCreate.nickname validated_data) ;;
             match by_nickname with
             | Some _ =>
                 raise (ValueError "User with given nickname already exists.")
             | None =>
                 new_user <- User_init validated_data
                               (hash_password (UserCreate.password validated_data)) ;;
                 session_add new_user ;;;
                 session_commit ;;;
                 ret (Some new_user)
             end
         end
     end)
    (fun e =>
       match e with
       | ValidationError => Some (logger ERROR ;;; ret None)
       | ValueError _ => Some (logger ERROR ;;; ret None)
       | SQLAlchemyError => None
       end).

(** The [WHERE] clause that [search_users] builds, filter by filter. *)
Definition search_where
           (username email first_name last_name role account_status : option string)
           (registration_date_from registration_date_to : option datetime)
  : User.t -> bool :=
  let query := fun _ : User.t => true in
  let query :=
    if truthy username then
      filter_ query (fun u => String.eqb (sql_lower (User.nickname u))
                                         (sql_lower (default "" username)))
    else query in
  let query :=
    if truthy email then
      filter_ query (fun u => String.eqb (sql_lower (User.email u))
                                         (sql_lower (default "" email)))
    else query in
  let query :=
    if truthy first_name then
      filter_ query (fun u => column_eqb sql_lower (User.first_name u)
                                         (default "" first_name))
    else query in
  let query :=
    if truthy last_name then
      filter_ query (fun u => column_eqb sql_lower (User.last_name u)
                                         (default "" last_name))
    else query in
  let query :=
    if truthy role then
      filter_ query (fun u => String.eqb (UserRole_name (User.role u))
                                         (default "" role))
    else query in
  let query :=
    if truthy account_status then
      let is_locked :=
        String.eqb (str_lower (default "" account_status)) "locked" in
      filter_ query (fun u => Bool.eqb (User.is_locked u) is_locked)
    else query in
  let query :=
    match registration_date_from with
    | Some d => filter_ query (fun u => Z.leb d (User.created_at u))
    | None => query
    end in
  let query :=
    match registration_date_to with
    | Some d => filter_ query (fun u => Z.leb (User.created_at u) d)
    | None => query
    end in
  query.

Definition to_response (user : User.t) : UserResponse.t :=
  UserResponse.mk (User.id user) (User.email user) (User.nickname user)
                  (User.is_professional user) (User.role user)
                  (User.created_at user)
                  (if negb (User.is_locked user) then "Active" else "Locked").

Definition search_users
           (username email first_name last_name role account_status : option string)
           (registration_date_from registration_date_to : option datetime)
           (skip limit : nat) : M (list UserResponse.t) :=
  let query :=
    Select (search_where username email first_name last_name role
                         account_status registration_date_from
                         registration_date_to)
           (Some skip) (Some limit) in
  result <- _execute_query query ;;
  let users := match result with
               | Some r => scalars_all r
               | None => []
               end in
  ret (List.map to_response users).

Definition delete (user_id : UUID) : M bool :=
  user <- get_by_id user_id ;;
  match user with
  | None => logger INFO ;;; ret false
  | Some u => session_delete u ;;; session_commit ;;; ret true
  end.

Definition list_users (skip limit : nat) : M (list User.t) :=
  result <- _execute_query (Select (fun _ => true) (Some skip) (Some limit)) ;;
  ret (match result with
       | Some r => scalars_all r
       | None => []
       end).

Definition register_user (user_data : gmap string string)
           (get_email_service : EmailService) : M (option User.t) :=
  create user_data get_email_service.

Definition login_user (email password : string) : M (option User.t) :=
  user <- get_by_email email ;;
  match user with
  | Some u =>
      if negb (User.email_verified u) then ret None
      else if User.is_locked u then ret None
      else if verify_password password (User.hashed_password u) then
        let u := User.set_failed_login_attempts 0 u in
        now <- datetime_now ;;
        let u := User.set_last_login_at (Some now) u in
        session_add u ;;;
        session_commit ;;;
        ret (Some u)
      else
        let u := User.set_failed_login_attempts
                   (User.failed_login_attempts u + 1) u in
        let u := if Z.leb max_login_attempts (User.failed_login_attempts u)
                 then User.set_is_locked true u else u in
        session_add u ;;;
        session_commit ;;;
        ret None
  | None => ret None
  end.

Definition is_account_locked (email : string) : M bool :=
  user <- get_by_email email ;;
  ret (match user with
       | Some u => User.is_locked u
       | None => false
       end).

Definition reset_password (user_id : UUID) (new_password : string) : M bool :=
  let hashed_password := hash_password new_password in
  user <- get_by_id user_id ;;
  match user with
  | Some u =>
      let u := User.set_hashed_password hashed_password u in
      let u := User.set_failed_login_attempts 0 u in
      let u := User.set_is_locked false u in
      session_add u ;;;
      session_commit ;;;
      ret true
  | None => ret false
  end.

(** [user.verification_token == token] for a [str] token. *)
Definition token_eqb (stored : option string) (token : string) : bool :=
  match stored with
  | Some t => String.eqb t token
  | None => false
  end.

Definition verify_email_with_token (user_id : UUID) (token : string) : M bool :=
  user <- get_by_id user_id ;;
  match user with
  | Some u =>
      if User.email_verified u then ret false
      else if token_eqb (User.verification_token u) token then
        let u := User.set_email_verified true u in
        let u := User.set_verification_token None u in
        let u := User.set_role
                   (if UserRole_eqb (User.role u) ANONYMOUS
                    then AUTHENTICATED else User.role u) u in
        session_add u ;;;
        session_commit ;;;
        ret true
      else ret false
  | None => ret false
  end.

Definition count : M Z :=
  result <- session_execute SelectCount ;;
  ret (scalar result).

Definition unlock_user_account (user_id : UUID) : M bool :=
  user <- get_by_id user_id ;;
  match user with
  | Some u =>
      if User.is_locked u then
        let u := User.set_is_locked false u in
        let u := User.set_failed_login_attempts 0 u in
        session_add u ;;;
        session_commit ;;;
        ret true
      else ret false
  | None => ret false
  end.

End UserService.


(** ** Reading the table *)

(** The account a single-field lookup answers with: the first row, in storage
    order, carrying the value. *)
Definition lookup_id (user_id : UUID) (table : list User.t) : option User.t :=
  List.find (fun u => N.eqb (User.id u) user_id) table.

Definition lookup_email (email : string) (table : list User.t) : option User.t :=
  List.find (fun u => String.eqb (User.email u) email) table.

(** A gateway whose coming round trips all succeed. *)
Definition healthy (w : World) : bool :=
  forallb (fun t => negb (fails t)) (trips w).

(** The part of the world that a successful round trip leaves alone, and the
    part it moves forward. *)
Definition calm (w w' : World) : Prop :=
  outbox w' = outbox w /\ next_uuid w' = next_uuid w /\
  clock w <= clock w' /\ healthy w' = true.

(** [login_user] called once per password, in order. *)
Fixpoint login_attempts (login : string -> M (option User.t))
         (passwords : list string) : M (list (option User.t)) :=
  match passwords with
  | [] => ret []
  | p :: ps =>
      r <- login p ;;
      rs <- login_attempts login ps ;;
      ret (r :: rs)
  end.

(** ** Concrete collaborators and worlds *)

Module Fixture.

(** A schema that asks for an email and a password and keeps both as given;
    the nickname is taken from the input or generated. *)
Definition model_dump (d : gmap string string) : option UserCreate.t :=
  match d !! "email", d !! "password" with
  | Some e, Some p =>
      Some (UserCreate.mk e (default "clever_fox_42" (d !! "nickname")) p
                          (d !! "first_name") (d !! "last_name") ANONYMOUS)
  | _, _ => None
  end.

Definition hash_password (p : string) : string := "$2b$" ++ p.

Definition verify_password (p h : string) : bool :=
  String.eqb h (hash_password p).

Definition lower (s : string) : string := lower_ascii s.

(** What [str.lower()] does to a UTF-8 string of ASCII characters and Kelvin
    signs: the letters A-Z are lowered and the Kelvin sign, the three bytes
    226 132 170, becomes k. *)
Fixpoint str_lower (s : string) : string :=
  match s with
  | String "226" (String "132" (String "170" s')) =>
      String "k" (str_lower s')
  | String c s' => String (ascii_lower c) (str_lower s')
  | EmptyString => EmptyString
  end.

(** The Kelvin sign, U+212A, in UTF-8. *)
Definition kelvin_sign : string :=
  String "226" (String "132" (String "170" EmptyString)).

Definition account (i : UUID) (e n pw : string) (verified locked : bool)
           (token : option string) (failed : Z) : User.t :=
  User.mk i e n None None (hash_password pw) ANONYMOUS false verified token
          locked failed None 1000.

Definition alice : User.t :=
  account 1%N "a@x.com" "a" "Secret123!" true false None 0.

Definition bob : User.t :=
  account 2%N "bob@x.com" "bob" "Hunter2222!" false false (Some "tok-bob") 0.

Definition carol : User.t :=
  account 3%N "carol@x.com" "carol" "Carol999!" true true None 5.

Definition world (table : list User.t) (script : list Trip) : World :=
  {| rows := table; pending := []; trips := script; clock := 5000;
     next_uuid := 10%N; rollbacks := 0%nat; outbox := []; log := [] |}.

Definition slow : Trip := {| fails := false; took := 7%N |}.
Definition broken : Trip := {| fails := true; took := 7%N |}.

Definition signup (e n pw : string) : gmap string string :=
  <["email" := e]> (<["nickname" := n]> (<["password" := pw]> ∅)).

End Fixture.


(** ** Profile update *)

(** Modelled from the spec: [app.schemas.user_schemas.UserUpdate] is not part
    of the sources at hand; this is what [model_dump(exclude_unset=True)]
    returns for an accepted patch: a field is [Some v] when the patch sets it
    and [None] when it leaves it out.  The name columns are nullable, so a
    patch can set them to null. *)
Module UserUpdate.
Record t := mk {
  email : option string;
  nickname : option string;
  password : option string;
  first_name : option (option string);
  last_name : option (option string);
  role : option UserRole
}.
End UserUpdate.

(** The statements [_execute_query] is handed: the queries above, and the
    [update(User).where(...).values(...)] that [update] builds. *)
Inductive Statement :=
| Selecting (q : Query)
| Updating (where_ : User.t -> bool) (values : User.t -> User.t).

(** [session.execute(statement)].  An UPDATE changes the matching rows inside
    the transaction: they are written by the commit that follows and dropped
    by a rollback.  Its result is the row count. *)
Definition session_execute_statement (s : Statement) : M Result :=
  match s with
  | Selecting q => session_execute q
  | Updating p f =>
      round_trip ;;;
      fun w =>
        let hit := List.filter p (rows w) in
        (Ok (Scalar (Z.of_nat (List.length hit))),
         {| rows := rows w;
            pending := pending w ++ List.map (fun x => Added (f x)) hit;
            trips := trips w; clock := clock w; next_uuid := next_uuid w;
            rollbacks := rollbacks w; outbox := outbox w; log := log w |})
  end.

(** [_execute_query] on any statement; on a query it is [_execute_query]
    above. *)
Definition _execute_statement (statement : Statement) : M (option Result) :=
  try_except
    (result <- session_execute_statement statement ;;
     session_commit ;;;
     ret (Some result))
    (fun e =>
       match e with
       | SQLAlchemyError =>
           Some (logger ERROR ;;; session_rollback ;;; ret None)
       | _ => None
       end).

(** [values(validated_data)]: the columns the patch names take its values,
    with [hashed_password] in the place of [password]; the others stay. *)
Definition patch_values (d : UserUpdate.t) (hashed_password : option string)
           (u : User.t) : User.t :=
  User.mk (User.id u)
          (default (User.email u) (UserUpdate.email d))
          (default (User.nickname u) (UserUpdate.nickname d))
          (default (User.first_name u) (UserUpdate.first_name d))
          (default (User.last_name u) (UserUpdate.last_name d))
          (default (User.hashed_password u) hashed_password)
          (default (User.role u) (UserUpdate.role d))
          (User.is_professional u) (User.email_verified u)
          (User.verification_token u) (User.is_locked u)
          (User.failed_login_attempts u) (User.last_login_at u)
          (User.created_at u).

(** [existing and existing.id != user_id]. *)
Definition owned_by_other (existing : option User.t) (user_id : UUID) : bool :=
  match existing with
  | Some x => negb (N.eqb (User.id x) user_id)
  | None => false
  end.

Section UserServiceUpdate.

(** [UserUpdate(update_data).model_dump(exclude_unset=True)]; [None] stands
    for the schema's ValidationError. *)
Variable UserUpdate_model_dump : gmap string string -> option UserUpdate.t.
Variable hash_password : string -> string.

(** [session.refresh(updated_user)] is called without [await]: the coroutine
    never runs, so it has no part here. *)
Definition update (user_id : UUID) (update_data : gmap string string)
  : M (option User.t) :=
  try_except
    (match UserUpdate_model_dump update_data with
     | None => raise ValidationError
     | Some validated_data =>
         existing_user <-
           match UserUpdate.email validated_data with
           | Some e => get_by_email e
           | None => ret None
           end ;;
         if owned_by_other existing_user user_id then
           logger ERROR ;;; ret None
         else
           existing_user_nickname <-
             match UserUpdate.nickname validated_data with
             | Some n => get_by_nickname n
             | None => ret None
             end ;;
           if owned_by_other existing_user_nickname user_id then
             logger ERROR ;;; ret None
           else
             let hashed_password :=
               option_map hash_password (UserUpdate.password validated_data) in
             _execute_statement
               (Updating (fun u => N.eqb (User.id u) user_id)
                         (patch_values validated_data hashed_password)) ;;;
             updated_user <- get_by_id user_id ;;
             match updated_user with
             | Some u => logger INFO ;;; ret (Some u)
             | None => logger ERROR ;;; ret None
             end
     end)
    (fun _ => Some (logger ERROR ;;; ret None)).

End UserServiceUpdate.

(** ** More of the table *)

Definition lookup_nickname (nickname : string) (table : list User.t)
  : option User.t :=
  List.find (fun u => String.eqb (User.nickname u) nickname) table.

(** No stored account carries the identifier the next insert will draw. *)
Definition fresh_uuid (w : World) : bool :=
  forallb (fun u => negb (N.eqb (User.id u) (next_uuid w))) (rows w).

(** Concrete patches and worlds for the properties of the other operations. *)
Module Sample.

(** A patch schema that takes the keys it knows and keeps their values. *)
Definition patch_dump (d : gmap string string) : option UserUpdate.t :=
  if decide (d = ∅) then None
  else Some (UserUpdate.mk (d !! "email") (d !! "nickname") (d !! "password")
                           (Some <$> (d !! "first_name"))
                           (Some <$> (d !! "last_name")) None).

Definition table : list User.t :=
  [Fixture.alice; Fixture.bob; Fixture.carol].

Definition quiet : World := Fixture.world table [].

Definition busy : World :=
  Fixture.world table [Fixture.slow; Fixture.slow; Fixture.slow; Fixture.slow;
                       Fixture.slow; Fixture.slow; Fixture.slow; Fixture.slow].

Definition down : World :=
  Fixture.world table [Fixture.broken; Fixture.broken; Fixture.broken].

End Sample.


(** * Properties *)

(** ** The monad *)

Lemma bind_ok {A B} (m : M A) (k : A -> M B) w a w' :
  m w = (Ok a, w') -> bind m k w = k a w'.
Proof. intros H. unfold bind. now rewrite H. Qed.

Lemma bind_raise {A B} (m : M A) (k : A -> M B) w e w' :
  m w = (Raise e, w') -> bind m k w = (Raise e, w').
Proof. intros H. unfold bind. now rewrite H. Qed.

Lemma try_except_ok {A} (m : M A) h w a w' :
  m w = (Ok a, w') -> try_except m h w = (Ok a, w').
Proof. intros H. unfold try_except. now rewrite H. Qed.

(** ** The table *)

Lemma first_of_filter (p : User.t -> bool) (l : list User.t) :
  scalars_first (Rows (List.filter p l)) = List.find p l.
Proof.
  induction l as [|x l IH]; simpl; [reflexivity|].
  destruct (p x); simpl; [reflexivity | exact IH].
Qed.

Lemma lookup_id_upsert (u : User.t) (l : list User.t) :
  lookup_id (User.id u) (upsert u l) = Some u.
Proof.
  unfold lookup_id.
  induction l as [|x l IH]; simpl.
  - now rewrite N.eqb_refl.
  - destruct (N.eqb (User.id x) (User.id u)) eqn:E; simpl.
    + now rewrite N.eqb_refl.
    + now rewrite E.
Qed.

Lemma lookup_email_upsert (u u' : User.t) (e : string) (l : list User.t) :
  lookup_email e l = Some u ->
  User.id u' = User.id u ->
  User.email u' = e ->
  lookup_email e (upsert u' l) = Some u'.
Proof.
  unfold lookup_email. intros Hl Hid He.
  induction l as [|x l IH]; simpl in *; [discriminate|].
  destruct (String.eqb (User.email x) e) eqn:E.
  - injection Hl as ->. rewrite Hid, N.eqb_refl. simpl.
    rewrite He. now rewrite String.eqb_refl.
  - destruct (N.eqb (User.id x) (User.id u')) eqn:E'; simpl.
    + rewrite He. now rewrite String.eqb_refl.
    + rewrite E. now apply IH.
Qed.

Lemma lookup_email_some (e : string) (l : list User.t) (u : User.t) :
  lookup_email e l = Some u -> User.email u = e /\ In u l.
Proof.
  unfold lookup_email. intros H.
  apply find_some in H as [Hin He].
  apply String.eqb_eq in He. now split.
Qed.

Lemma lookup_id_some (i : UUID) (l : list User.t) (u : User.t) :
  lookup_id i l = Some u -> User.id u = i /\ In u l.
Proof.
  unfold lookup_id. intros H.
  apply find_some in H as [Hin He].
  apply N.eqb_eq in He. now split.
Qed.

Lemma lookup_email_exists (l : list User.t) (u : User.t) :
  In u l -> exists u0, lookup_email (User.email u) l = Some u0.
Proof.
  unfold lookup_email. intros Hin.
  destruct (List.find _ l) eqn:E; [eauto|].
  exfalso. apply (find_none _ _ E) in Hin.
  now rewrite String.eqb_refl in Hin.
Qed.

(** ** Round trips *)

Lemma healthy_cons w t ts :
  trips w = t :: ts -> healthy w = true ->
  fails t = false /\ forallb (fun t => negb (fails t)) ts = true.
Proof.
  unfold healthy. intros -> H. simpl in H.
  apply andb_true_iff in H as [H1 H2].
  split; [now apply negb_true_iff in H1 | exact H2].
Qed.

Lemma round_trip_healthy w :
  healthy w = true ->
  exists w', round_trip w = (Ok tt, w') /\
             rows w' = rows w /\ pending w' = pending w /\
             rollbacks w' = rollbacks w /\ log w' = log w /\ calm w w'.
Proof.
  intros H. unfold round_trip.
  destruct (trips w) as [|t ts] eqn:E.
  - exists w. unfold calm. repeat split; auto; lia.
  - destruct (healthy_cons _ _ _ E H) as [Hf Hts]. rewrite Hf.
    eexists. split; [reflexivity|]. unfold calm, healthy. simpl.
    repeat split; auto. lia.
Qed.

Lemma round_trip_frame w r w' :
  round_trip w = (r, w') ->
  rows w' = rows w /\ pending w' = pending w /\ outbox w' = outbox w /\
  clock w <= clock w'.
Proof.
  unfold round_trip.
  destruct (trips w) as [|t ts].
  - intros [= <- <-]. repeat split; auto; lia.
  - destruct (fails t); intros [= <- <-]; simpl; repeat split; auto; lia.
Qed.

Lemma session_commit_healthy w :
  healthy w = true ->
  exists w', session_commit w = (Ok tt, w') /\
             rows w' = fold_left flush (pending w) (rows w) /\
             pending w' = [] /\ rollbacks w' = rollbacks w /\
             log w' = log w /\ calm w w'.
Proof.
  intros H. destruct (round_trip_healthy w H) as (w1 & R & Hr & Hp & Hb & Hl & Hc).
  unfold session_commit. rewrite (bind_ok _ _ _ _ _ R).
  eexists. split; [reflexivity|]. simpl. rewrite Hr, Hp.
  repeat split; auto; apply Hc.
Qed.

Lemma session_execute_healthy q w :
  healthy w = true ->
  exists w', session_execute q w = (Ok (run_query q (rows w)), w') /\
             rows w' = rows w /\ pending w' = pending w /\
             rollbacks w' = rollbacks w /\ log w' = log w /\ calm w w'.
Proof.
  intros H. destruct (round_trip_healthy w H) as (w1 & R & Hr & Hp & Hb & Hl & Hc).
  unfold session_execute. rewrite (bind_ok _ _ _ _ _ R).
  exists w1. rewrite Hr. repeat split; auto; apply Hc.
Qed.

Lemma calm_trans w1 w2 w3 : calm w1 w2 -> calm w2 w3 -> calm w1 w3.
Proof.
  unfold calm. intros (A1 & A2 & A3 & A4) (B1 & B2 & B3 & B4).
  repeat split; try congruence. lia.
Qed.

(** ** The service's queries *)

Section Properties.

Variable UserCreate_model_dump : gmap string string -> option UserCreate.t.
Variable hash_password : string -> string.
Variable verify_password : string -> string -> bool.
Variable max_login_attempts : Z.
Variable sql_lower : string -> string.
Variable str_lower : string -> string.

(** On a healthy gateway a query answers from the table and leaves it as it
    was. *)
Lemma execute_query_healthy q w :
  pending w = [] -> healthy w = true ->
  exists w', _execute_query q w = (Ok (Some (run_query q (rows w))), w') /\
             rows w' = rows w /\ pending w' = [] /\ calm w w'.
Proof.
  intros Hp H.
  destruct (session_execute_healthy q w H) as (w1 & E & Hr1 & Hp1 & _ & _ & Hc1).
  destruct (session_commit_healthy w1 (proj2 (proj2 (proj2 Hc1))))
    as (w2 & C & Hr2 & Hp2 & _ & _ & Hc2).
  exists w2. split.
  - unfold _execute_query. apply try_except_ok.
    rewrite (bind_ok _ _ _ _ _ E), (bind_ok _ _ _ _ _ C). reflexivity.
  - rewrite Hr2, Hp1, Hp, Hr1. simpl.
    split; [reflexivity | split; [exact Hp2 | eapply calm_trans; eauto]].
Qed.

(** Whatever the gateway does, a query returns: with the rows, or with
    [None] after a rollback.  The table is as before. *)
Lemma execute_query_total q w :
  pending w = [] ->
  exists r w', _execute_query q w = (Ok r, w') /\
               (r = None \/ r = Some (run_query q (rows w))) /\
               rows w' = rows w /\ pending w' = [] /\ outbox w' = outbox w.
Proof.
  intros Hp. unfold _execute_query, try_except, bind, session_execute, session_commit, bind.
  destruct (round_trip w) as [[[]|e] w1] eqn:R1;
    destruct (round_trip_frame _ _ _ R1) as (Hr1 & Hp1 & Ho1 & _).
  - unfold ret at 1.
    destruct (round_trip w1) as [[[]|e] w2] eqn:R2;
      destruct (round_trip_frame _ _ _ R2) as (Hr2 & Hp2 & Ho2 & _).
    + eexists _, _. split; [reflexivity|]. simpl.
      rewrite Hp2, Hp1, Hp, Hr2, Hr1, Ho2, Ho1. simpl. auto.
    + assert (e = SQLAlchemyError) as ->.
      { unfold round_trip in R2. destruct (trips w1); [discriminate|].
        destruct (fails _); now inversion R2. }
      eexists _, _. split; [reflexivity|]. simpl.
      rewrite Hr2, Hr1, Ho2, Ho1. auto.
  - assert (e = SQLAlchemyError) as ->.
    { unfold round_trip in R1. destruct (trips w); [discriminate|].
      destruct (fails _); now inversion R1. }
    eexists _, _. split; [reflexivity|]. simpl.
    rewrite Hr1, Ho1. auto.
Qed.

Lemma fetch_user_healthy p w :
  pending w = [] -> healthy w = true ->
  exists w', _fetch_user p w = (Ok (List.find p (rows w)), w') /\
             rows w' = rows w /\ pending w' = [] /\ calm w w'.
Proof.
  intros Hp H.
  destruct (execute_query_healthy (Select p None None) w Hp H) as (w1 & E & Hrest).
  exists w1. split; [|exact Hrest].
  unfold _fetch_user. rewrite (bind_ok _ _ _ _ _ E).
  unfold ret, run_query, window. now rewrite first_of_filter.
Qed.

Lemma fetch_user_total p w :
  pending w = [] ->
  exists r w', _fetch_user p w = (Ok r, w') /\
               (r = None \/ r = List.find p (rows w)) /\
               rows w' = rows w /\ pending w' = [] /\ outbox w' = outbox w.
Proof.
  intros Hp.
  destruct (execute_query_total (Select p None None) w Hp)
    as (r & w1 & E & Hr & Hrest).
  unfold _fetch_user. rewrite (bind_ok _ _ _ _ _ E). unfold ret.
  eexists _, w1. split; [reflexivity|]. split; [|exact Hrest].
  destruct Hr as [-> | ->]; [now left | right].
  unfold run_query, window. now rewrite first_of_filter.
Qed.

(** Staging one object and committing it on a healthy gateway. *)
Lemma add_commit_healthy {A} (u : User.t) (x : A) w :
  pending w = [] -> healthy w = true ->
  exists w', (session_add u ;;; session_commit ;;; ret x) w = (Ok x, w') /\
             rows w' = upsert u (rows w) /\ pending w' = [] /\ calm w w'.
Proof.
  intros Hp H.
  destruct (session_add u w) as [r w1] eqn:S.
  assert (S' : session_add u w = (Ok tt, w1)) by (rewrite S; now inversion S).
  assert (Hw : rows w1 = rows w /\ pending w1 = [Added u] /\ calm w w1).
  { inversion S; subst w1. unfold calm, healthy. simpl. rewrite Hp.
    repeat split; auto. lia. }
  destruct Hw as (Hr1 & Hp1 & Hc1).
  destruct (session_commit_healthy w1 (proj2 (proj2 (proj2 Hc1))))
    as (w2 & C & Hr2 & Hp2 & _ & _ & Hc2).
  exists w2. split.
  - rewrite (bind_ok _ _ _ _ _ S'), (bind_ok _ _ _ _ _ C). reflexivity.
  - rewrite Hr2, Hp1, Hr1. simpl.
    split; [reflexivity | split; [exact Hp2 | eapply calm_trans; eauto]].
Qed.

Lemma get_by_email_healthy email w :
  pending w = [] -> healthy w = true ->
  exists w', get_by_email email w = (Ok (lookup_email email (rows w)), w') /\
             rows w' = rows w /\ pending w' = [] /\ calm w w'.
Proof. intros Hp H. exact (fetch_user_healthy _ w Hp H). Qed.

Lemma get_by_id_healthy user_id w :
  pending w = [] -> healthy w = true ->
  exists w', get_by_id user_id w = (Ok (lookup_id user_id (rows w)), w') /\
             rows w' = rows w /\ pending w' = [] /\ calm w w'.
Proof. intros Hp H. exact (fetch_user_healthy _ w Hp H). Qed.

(** ** Login *)

(** A login with the right password on a verified, unlocked account: what is
    returned and what is written. *)
Lemma login_user_accepts (w : World) (email password : string) (u : User.t) :
  pending w = [] ->
  healthy w = true ->
  lookup_email email (rows w) = Some u ->
  User.email_verified u = true ->
  User.is_locked u = false ->
  verify_password password (User.hashed_password u) = true ->
  exists (t : datetime) (w' : World),
    let u' := User.set_last_login_at (Some t)
                (User.set_failed_login_attempts 0 u) in
    login_user verify_password max_login_attempts email password w
      = (Ok (Some u'), w') /\
    clock w <= t /\
    rows w' = upsert u' (rows w) /\
    pending w' = [] /\ healthy w' = true.
Proof.
  intros Hp H Hl Hv Hlk Hpw.
  destruct (get_by_email_healthy email w Hp H) as (w1 & G & Hr1 & Hp1 & Hc1).
  set (u' := User.set_last_login_at (Some (clock w1))
               (User.set_failed_login_attempts 0 u)).
  destruct (add_commit_healthy u' (Some u') w1 Hp1 (proj2 (proj2 (proj2 Hc1))))
    as (w2 & A & Hr2 & Hp2 & Hc2).
  exists (clock w1), w2. cbv zeta. fold u'.
  split.
  - unfold login_user. rewrite (bind_ok _ _ _ _ _ G), Hl, Hv, Hlk, Hpw.
    exact A.
  - split; [apply Hc1|]. split; [now rewrite Hr2, Hr1|].
    split; [exact Hp2 | apply Hc2].
Qed.

(** C5: for a verified, unlocked account, login with the correct password
    returns the account with [failed_login_attempts] reset to 0 and
    [last_login_at] set to a time not before the time of the call; the
    stored account is the returned one. *)
Theorem login_user_correct_password (w : World) (email password : string)
        (u : User.t) :
  pending w = [] ->
  healthy w = true ->
  lookup_email email (rows w) = Some u ->
  User.email_verified u = true ->
  User.is_locked u = false ->
  verify_password password (User.hashed_password u) = true ->
  exists (t : datetime) (u' : User.t) (w' : World),
    login_user verify_password max_login_attempts email password w
      = (Ok (Some u'), w') /\
    u' = User.set_last_login_at (Some t) (User.set_failed_login_attempts 0 u) /\
    User.failed_login_attempts u' = 0 /\
    User.last_login_at u' = Some t /\
    clock w <= t /\
    lookup_email email (rows w') = Some u' /\
    lookup_id (User.id u) (rows w') = Some u'.
Proof.
  intros Hp H Hl Hv Hlk Hpw.
  destruct (login_user_accepts w email password u Hp H Hl Hv Hlk Hpw)
    as (t & w' & L & Ht & Hr & _).
  cbv zeta in L.
  set (u' := User.set_last_login_at (Some t)
               (User.set_failed_login_attempts 0 u)) in *.
  exists t, u', w'.
  split; [exact L|]. split; [reflexivity|]. split; [reflexivity|].
  split; [reflexivity|]. split; [exact Ht|].
  rewrite Hr. split.
  - apply (lookup_email_upsert u u' email); auto.
    apply (lookup_email_some _ _ _ Hl).
  - change (User.id u) with (User.id u'). apply lookup_id_upsert.
Qed.

(** A login that stops before the password check changes nothing, whatever
    the gateway does. *)
Lemma login_user_stops_early (w : World) (email password : string) :
  pending w = [] ->
  (forall u, lookup_email email (rows w) = Some u ->
             User.email_verified u = false \/ User.is_locked u = true) ->
  exists w', login_user verify_password max_login_attempts email password w
               = (Ok None, w') /\
             rows w' = rows w /\ pending w' = [] /\ outbox w' = outbox w.
Proof.
  intros Hp Hpre.
  destruct (fetch_user_total (fun u => String.eqb (User.email u) email) w Hp)
    as (r & w1 & G & Hr & Hrest).
  exists w1. split; [|exact Hrest].
  unfold login_user, get_by_email. rewrite (bind_ok _ _ _ _ _ G).
  destruct r as [u|]; [|reflexivity].
  destruct Hr as [Hr|Hr]; [discriminate|].
  destruct (Hpre u (eq_sym Hr)) as [Hv|Hl].
  - now rewrite Hv.
  - rewrite Hl. now destruct (User.email_verified u).
Qed.

(** C9: a login that fails before the password check (no account under the
    email, or the account is unverified, or it is locked) modifies no field
    of any account, for every password and whatever the gateway does. *)
Theorem login_user_precheck_frame (w : World) (email password : string) :
  pending w = [] ->
  (lookup_email email (rows w) = None \/
   exists u, lookup_email email (rows w) = Some u /\
             (User.email_verified u = false \/ User.is_locked u = true)) ->
  exists w', login_user verify_password max_login_attempts email password w
               = (Ok None, w') /\
             rows w' = rows w /\
             lookup_email email (rows w') = lookup_email email (rows w).
Proof.
  intros Hp Hpre.
  destruct (login_user_stops_early w email password Hp) as (w' & L & Hr & _).
  - intros u Hu. destruct Hpre as [Hn | (u0 & Hu0 & Hc)]; [congruence|].
    rewrite Hu in Hu0. now injection Hu0 as ->.
  - exists w'. rewrite Hr. auto.
Qed.

(** One attempt with a wrong password on a verified, unlocked account. *)
Lemma login_user_wrong_password (w : World) (email password : string)
      (u : User.t) :
  pending w = [] ->
  healthy w = true ->
  lookup_email email (rows w) = Some u ->
  User.email_verified u = true ->
  User.is_locked u = false ->
  verify_password password (User.hashed_password u) = false ->
  exists (u' : User.t) (w' : World),
    login_user verify_password max_login_attempts email password w
      = (Ok None, w') /\
    pending w' = [] /\ healthy w' = true /\
    lookup_email email (rows w') = Some u' /\
    User.email_verified u' = true /\
    User.hashed_password u' = User.hashed_password u /\
    User.failed_login_attempts u' = User.failed_login_attempts u + 1 /\
    User.is_locked u'
      = Z.leb max_login_attempts (User.failed_login_attempts u + 1).
Proof.
  intros Hp H Hl Hv Hlk Hpw.
  destruct (get_by_email_healthy email w Hp H) as (w1 & G & Hr1 & Hp1 & Hc1).
  set (v := User.set_failed_login_attempts (User.failed_login_attempts u + 1) u).
  set (u' := if Z.leb max_login_attempts (User.failed_login_attempts v)
             then User.set_is_locked true v else v).
  destruct (add_commit_healthy u' (@None User.t) w1 Hp1
              (proj2 (proj2 (proj2 Hc1))))
    as (w2 & A & Hr2 & Hp2 & Hc2).
  assert (Hid : User.id u' = User.id u /\ User.email u' = User.email u).
  { subst u' v. now destruct (Z.leb _ _). }
  exists u', w2. split.
  - unfold login_user. rewrite (bind_ok _ _ _ _ _ G), Hl, Hv, Hlk, Hpw.
    exact A.
  - split; [exact Hp2|]. split; [apply Hc2|].
    split.
    { rewrite Hr2, Hr1. apply (lookup_email_upsert u u' email); auto.
      - apply Hid.
      - rewrite (proj2 Hid). apply (lookup_email_some _ _ _ Hl). }
    subst u' v. simpl.
    destruct (Z.leb max_login_attempts (User.failed_login_attempts u + 1));
      simpl; rewrite ?Hv, ?Hlk; auto.
Qed.

Lemma login_attempts_wrong (passwords : list string) :
  forall (w : World) (email : string) (u : User.t),
    pending w = [] ->
    healthy w = true ->
    lookup_email email (rows w) = Some u ->
    User.email_verified u = true ->
    User.is_locked u = false ->
    Forall (fun p => verify_password p (User.hashed_password u) = false)
           passwords ->
    User.failed_login_attempts u + Z.of_nat (List.length passwords)
      <= max_login_attempts ->
    exists (u' : User.t) (w' : World),
      login_attempts (login_user verify_password max_login_attempts email)
                     passwords w
        = (Ok (repeat None (List.length passwords)), w') /\
      pending w' = [] /\ healthy w' = true /\
      lookup_email email (rows w') = Some u' /\
      User.email_verified u' = true /\
      User.hashed_password u' = User.hashed_password u /\
      User.failed_login_attempts u'
        = User.failed_login_attempts u + Z.of_nat (List.length passwords) /\
      User.is_locked u'
        = match passwords with
          | [] => false
          | _ => Z.leb max_login_attempts (User.failed_login_attempts u')
          end.
Proof.
  induction passwords as [|p ps IH]; intros w email u Hp H Hl Hv Hlk Hall Hmax.
  - exists u, w. simpl. rewrite Z.add_0_r. repeat split; auto.
  - inversion Hall as [|? ? Hp1 Hps]; subst.
    destruct (login_user_wrong_password w email p u Hp H Hl Hv Hlk Hp1)
      as (u1 & w1 & L1 & Hq1 & Hh1 & Hl1 & Hv1 & Hpw1 & Hf1 & Hk1).
    simpl List.length in *. rewrite Nat2Z.inj_succ in *.
    destruct ps as [|p2 ps'].
    + exists u1, w1. simpl in *.
      rewrite (bind_ok _ _ _ _ _ L1). unfold ret, bind.
      repeat split; auto; try lia.
      rewrite Hk1, Hf1. reflexivity.
    + assert (Hk : User.is_locked u1 = false).
      { rewrite Hk1. apply Z.leb_gt. simpl List.length in Hmax.
        rewrite Nat2Z.inj_succ in Hmax. lia. }
      rewrite <- Hpw1 in Hps.
      destruct (IH w1 email u1 Hq1 Hh1 Hl1 Hv1 Hk Hps)
        as (u2 & w2 & L2 & Hq2 & Hh2 & Hl2 & Hv2 & Hpw2 & Hf2 & Hk2).
      { lia. }
      exists u2, w2.
      change (login_attempts ?f (p :: ?l)) with
        (r <- f p ;; rs <- login_attempts f l ;; ret (r :: rs)).
      rewrite (bind_ok _ _ _ _ _ L1), (bind_ok _ _ _ _ _ L2).
      split; [reflexivity|].
      repeat split; auto; try congruence; try lia.
Qed.

(** C4: on a verified, unlocked account with no failed attempts, N
    consecutive logins with a wrong password, N being the configured maximum,
    leave the account unlocked after each of the first N-1 attempts and lock
    it on the Nth; the next login fails and changes nothing, whatever
    password it is given. *)
Theorem login_user_lockout (w : World) (email : string) (u : User.t)
        (passwords : list string) :
  pending w = [] ->
  healthy w = true ->
  lookup_email email (rows w) = Some u ->
  User.email_verified u = true ->
  User.is_locked u = false ->
  User.failed_login_attempts u = 0 ->
  1 <= max_login_attempts ->
  Z.of_nat (List.length passwords) = max_login_attempts ->
  Forall (fun p => verify_password p (User.hashed_password u) = false)
         passwords ->
  (forall k : nat,
      (k < List.length passwords)%nat ->
      exists (uk : User.t) (wk : World),
        login_attempts (login_user verify_password max_login_attempts email)
                       (firstn k passwords) w
          = (Ok (repeat None k), wk) /\
        lookup_email email (rows wk) = Some uk /\
        User.failed_login_attempts uk = Z.of_nat k /\
        User.is_locked uk = false) /\
  exists (u' : User.t) (w' : World),
    login_attempts (login_user verify_password max_login_attempts email)
                   passwords w
      = (Ok (repeat None (List.length passwords)), w') /\
    lookup_email email (rows w') = Some u' /\
    User.failed_login_attempts u' = max_login_attempts /\
    User.is_locked u' = true /\
    forall password : string,
      exists w'' : World,
        login_user verify_password max_login_attempts email password w'
          = (Ok None, w'') /\
        rows w'' = rows w'.
Proof.
  intros Hp H Hl Hv Hlk Hf Hmax Hlen Hall. split.
  - intros k Hk.
    assert (Hlenk : List.length (firstn k passwords) = k)
      by (apply firstn_length_le; lia).
    destruct (login_attempts_wrong (firstn k passwords) w email u Hp H Hl Hv Hlk)
      as (uk & wk & L & _ & _ & Hlu & _ & _ & Hfk & Hkk).
    + rewrite <- (firstn_skipn k passwords) in Hall.
      apply Forall_app in Hall. apply Hall.
    + rewrite Hlenk, Hf. lia.
    + exists uk, wk. rewrite Hlenk in L, Hfk. rewrite Hf in Hfk.
      split; [exact L|]. split; [exact Hlu|]. split; [lia|].
      rewrite Hkk. destruct (firstn k passwords); [reflexivity|].
      apply Z.leb_gt. lia.
  - destruct (login_attempts_wrong passwords w email u Hp H Hl Hv Hlk Hall)
      as (u' & w' & L & Hp' & _ & Hlu & _ & _ & Hf' & Hk').
    + rewrite Hf. lia.
    + assert (Hlocked : User.is_locked u' = true).
      { rewrite Hk'. destruct passwords; [simpl in Hlen; lia|].
        apply Z.leb_le. lia. }
      exists u', w'. split; [exact L|]. split; [exact Hlu|].
      split; [lia|]. split; [exact Hlocked|].
      intros password.
      destruct (login_user_stops_early w' email password Hp')
        as (w'' & L' & Hr & _).
      * intros u0 Hu0. rewrite Hlu in Hu0. injection Hu0 as <-. now right.
      * now exists w''.
Qed.

(** ** Email verification *)

Lemma token_eqb_eq (stored : option string) (token : string) :
  token_eqb stored token = true <-> stored = Some token.
Proof.
  destruct stored as [t|]; simpl.
  - rewrite String.eqb_eq. split; congruence.
  - split; discriminate.
Qed.

(** Verification answers [False] and changes nothing when the account is
    verified already or holds another token, whatever the gateway does. *)
Lemma verify_email_refused (w : World) (user_id : UUID) (token : string) :
  pending w = [] ->
  (forall u, lookup_id user_id (rows w) = Some u ->
             User.email_verified u = true \/
             User.verification_token u <> Some token) ->
  exists w', verify_email_with_token user_id token w = (Ok false, w') /\
             rows w' = rows w /\ pending w' = [] /\ outbox w' = outbox w.
Proof.
  intros Hp Hpre.
  destruct (fetch_user_total (fun u => N.eqb (User.id u) user_id) w Hp)
    as (r & w1 & G & Hr & Hrest).
  exists w1. split; [|exact Hrest].
  unfold verify_email_with_token, get_by_id. rewrite (bind_ok _ _ _ _ _ G).
  destruct r as [u|]; [|reflexivity].
  destruct Hr as [Hr|Hr]; [discriminate|].
  destruct (User.email_verified u) eqn:Hv; [reflexivity|].
  destruct (Hpre u (eq_sym Hr)) as [Hv'|Ht]; [congruence|].
  destruct (token_eqb (User.verification_token u) token) eqn:E; [|reflexivity].
  now apply token_eqb_eq in E.
Qed.

(** C7: a [verify_email] call whose token differs from the stored
    verification token returns false and leaves every field of every
    account as it was. *)
Theorem verify_email_wrong_token (w : World) (user_id : UUID) (token : string)
        (u : User.t) :
  pending w = [] ->
  lookup_id user_id (rows w) = Some u ->
  User.verification_token u <> Some token ->
  exists w', verify_email_with_token user_id token w = (Ok false, w') /\
             rows w' = rows w /\
             lookup_id user_id (rows w') = Some u.
Proof.
  intros Hp Hl Ht.
  destruct (verify_email_refused w user_id token Hp) as (w' & V & Hr & _).
  - intros u0 Hu0. rewrite Hl in Hu0. injection Hu0 as <-. now right.
  - exists w'. rewrite Hr. auto.
Qed.

(** C6: on an unverified account whose stored token is the supplied one,
    [verify_email] returns true, sets [email_verified], clears the token and
    promotes the role from ANONYMOUS to AUTHENTICATED, leaving any other role
    alone; after that, a call with any token returns false. *)
Theorem verify_email_correct_token (w : World) (user_id : UUID)
        (token : string) (u : User.t) :
  pending w = [] ->
  healthy w = true ->
  lookup_id user_id (rows w) = Some u ->
  User.email_verified u = false ->
  User.verification_token u = Some token ->
  exists (u' : User.t) (w' : World),
    verify_email_with_token user_id token w = (Ok true, w') /\
    lookup_id user_id (rows w') = Some u' /\
    User.email_verified u' = true /\
    User.verification_token u' = None /\
    (User.role u = ANONYMOUS -> User.role u' = AUTHENTICATED) /\
    (User.role u <> ANONYMOUS -> User.role u' = User.role u) /\
    u' = User.set_role (User.role u')
           (User.set_verification_token None
              (User.set_email_verified true u)) /\
    forall token' : string,
      exists w'' : World,
        verify_email_with_token user_id token' w' = (Ok false, w'') /\
        rows w'' = rows w'.
Proof.
  intros Hp H Hl Hv Ht.
  destruct (get_by_id_healthy user_id w Hp H) as (w1 & G & Hr1 & Hp1 & Hc1).
  set (v := User.set_verification_token None (User.set_email_verified true u)).
  set (u' := User.set_role (if UserRole_eqb (User.role v) ANONYMOUS
                            then AUTHENTICATED else User.role v) v).
  destruct (add_commit_healthy u' true w1 Hp1 (proj2 (proj2 (proj2 Hc1))))
    as (w2 & A & Hr2 & Hp2 & Hc2).
  assert (Hid : User.id u' = user_id)
    by (apply (lookup_id_some _ _ _ Hl)).
  assert (Hl2 : lookup_id user_id (rows w2) = Some u').
  { rewrite Hr2, <- Hid. apply lookup_id_upsert. }
  exists u', w2. split.
  - unfold verify_email_with_token. rewrite (bind_ok _ _ _ _ _ G), Hl, Hv.
    rewrite (proj2 (token_eqb_eq _ _) Ht). exact A.
  - split; [exact Hl2|]. split; [reflexivity|]. split; [reflexivity|].
    split; [|split; [|split]].
    + intros Hrole. subst u' v. simpl. now rewrite Hrole.
    + intros Hrole. subst u' v. simpl.
      destruct (User.role u); simpl; congruence.
    + reflexivity.
    + intros token'.
      destruct (verify_email_refused w2 user_id token' Hp2)
        as (w3 & V & Hr3 & _).
      * intros u0 Hu0. rewrite Hl2 in Hu0. injection Hu0 as <-. now left.
      * now exists w3.
Qed.

(** ** Password reset *)

(** C8: [reset_password] on an existing account returns true and stores the
    hash of the new password with [failed_login_attempts] 0 and [is_locked]
    false, whatever they were; if the account is verified, a login with the
    new password then succeeds.  On an id that is not stored it returns
    false. *)
Theorem reset_password_unlocks (w : World) (user_id : UUID)
        (new_password : string) :
  pending w = [] ->
  healthy w = true ->
  (forall p, verify_password p (hash_password p) = true) ->
  (forall u : User.t,
      lookup_id user_id (rows w) = Some u ->
      exists (u' : User.t) (w' : World),
        reset_password hash_password user_id new_password w = (Ok true, w') /\
        lookup_id user_id (rows w') = Some u' /\
        User.hashed_password u' = hash_password new_password /\
        User.failed_login_attempts u' = 0 /\
        User.is_locked u' = false /\
        (User.email_verified u = true ->
         lookup_email (User.email u) (rows w) = Some u ->
         exists (u'' : User.t) (w'' : World),
           login_user verify_password max_login_attempts (User.email u)
                      new_password w'
             = (Ok (Some u''), w'') /\
           User.id u'' = User.id u)) /\
  (lookup_id user_id (rows w) = None ->
   exists w' : World,
     reset_password hash_password user_id new_password w = (Ok false, w') /\
     rows w' = rows w).
Proof.
  intros Hp H Hcred.
  destruct (get_by_id_healthy user_id w Hp H) as (w1 & G & Hr1 & Hp1 & Hc1).
  split.
  - intros u Hl.
    set (u' := User.set_is_locked false
                 (User.set_failed_login_attempts 0
                    (User.set_hashed_password (hash_password new_password) u))).
    destruct (add_commit_healthy u' true w1 Hp1 (proj2 (proj2 (proj2 Hc1))))
      as (w2 & A & Hr2 & Hp2 & Hc2).
    assert (Hid : User.id u' = user_id)
      by (apply (lookup_id_some _ _ _ Hl)).
    exists u', w2. split.
    + unfold reset_password. rewrite (bind_ok _ _ _ _ _ G), Hl. exact A.
    + split; [rewrite Hr2, <- Hid; apply lookup_id_upsert|].
      split; [reflexivity|]. split; [reflexivity|]. split; [reflexivity|].
      intros Hv Hle.
      assert (Hlu : lookup_email (User.email u) (rows w2) = Some u').
      { rewrite Hr2, Hr1. now apply (lookup_email_upsert u u'). }
      destruct (login_user_accepts w2 (User.email u) new_password u'
                  Hp2 (proj2 (proj2 (proj2 Hc2))) Hlu Hv eq_refl
                  (Hcred new_password))
        as (t & w'' & L & _).
      eexists _, w''. split; [exact L|]. reflexivity.
  - intros Hl. exists w1. split; [|exact Hr1].
    unfold reset_password. now rewrite (bind_ok _ _ _ _ _ G), Hl.
Qed.

(** ** Search *)

Lemma search_users_healthy (w : World)
      (username email first_name last_name role account_status : option string)
      (date_from date_to : option datetime) (skip limit : nat) :
  pending w = [] ->
  healthy w = true ->
  exists w',
    search_users sql_lower str_lower username email first_name last_name role
                 account_status date_from date_to skip limit w
      = (Ok (List.map to_response
               (window (Some skip) (Some limit)
                  (List.filter
                     (search_where sql_lower str_lower username email first_name
                                   last_name role account_status date_from
                                   date_to)
                     (rows w)))), w') /\
    rows w' = rows w.
Proof.
  intros Hp H.
  destruct (execute_query_healthy
              (Select (search_where sql_lower str_lower
                                    username email first_name
                                    last_name role account_status date_from
                                    date_to) (Some skip) (Some limit)) w Hp H)
    as (w1 & E & Hr & _).
  exists w1. split; [|exact Hr].
  unfold search_users. now rewrite (bind_ok _ _ _ _ _ E).
Qed.

Lemma truthy_nonempty (s : string) : s <> "" -> truthy (Some s) = true.
Proof.
  intros Hs. simpl. apply negb_true_iff. now apply String.eqb_neq.
Qed.

(** A non-empty [account_status] adds exactly one conjunct to the other
    filters: [is_locked = (status.lower() = "locked")]. *)
Lemma search_where_account_status
      (username email first_name last_name role : option string)
      (date_from date_to : option datetime) (s : string) (u : User.t) :
  s <> "" ->
  search_where sql_lower str_lower
               username email first_name last_name role (Some s)
               date_from date_to u
  = (search_where sql_lower str_lower
                  username email first_name last_name role None
                  date_from date_to u
     && Bool.eqb (User.is_locked u) (String.eqb (str_lower s) "locked"))%bool.
Proof.
  intros Hs. unfold search_where. rewrite (truthy_nonempty s Hs).
  change (truthy None) with false. cbv iota zeta.
  unfold filter_, default, from_option, id.
  destruct (truthy username), (truthy email), (truthy first_name),
    (truthy last_name), (truthy role), date_from, date_to;
    cbv beta iota; btauto.
Qed.

(** An empty-string argument filters like an absent one, for every filter
    that takes a string. *)
Lemma search_where_empty_string
      (username email first_name last_name role account_status : option string)
      (date_from date_to : option datetime) :
  let absent (o : option string) := if truthy o then o else None in
  search_where sql_lower str_lower username email first_name last_name role
               account_status date_from date_to
  = search_where sql_lower str_lower (absent username) (absent email)
                 (absent first_name) (absent last_name) (absent role)
                 (absent account_status) date_from date_to.
Proof.
  intros absent. unfold search_where, absent.
  destruct (truthy username) eqn:E1, (truthy email) eqn:E2,
    (truthy first_name) eqn:E3, (truthy last_name) eqn:E4,
    (truthy role) eqn:E5, (truthy account_status) eqn:E6;
    rewrite ?E1, ?E2, ?E3, ?E4, ?E5, ?E6; reflexivity.
Qed.

(** C10: with a non-empty [account_status] s, search returns the page of the
    accounts that pass the other filters and have
    [is_locked = (s.lower() = "locked")], where [lower] is Python's own; so
    any non-empty s that it does not lower to "locked" selects unlocked
    accounts only, and an empty or absent [account_status] filters
    nothing. *)
Theorem search_users_account_status (w : World)
        (username email first_name last_name role : option string)
        (date_from date_to : option datetime) (skip limit : nat) :
  pending w = [] ->
  healthy w = true ->
  let page (p : User.t -> bool) :=
    List.map to_response
      (window (Some skip) (Some limit) (List.filter p (rows w))) in
  let others :=
    search_where sql_lower str_lower
                 username email first_name last_name role None
                 date_from date_to in
  (forall s : string,
      s <> "" ->
      exists w',
        search_users sql_lower str_lower
                     username email first_name last_name role
                     (Some s) date_from date_to skip limit w
        = (Ok (page (fun u =>
                       (others u &&
                        Bool.eqb (User.is_locked u)
                                 (String.eqb (str_lower s) "locked"))%bool)),
           w')) /\
  (forall s : string,
      s <> "" -> str_lower s <> "locked" ->
      exists w',
        search_users sql_lower str_lower
                     username email first_name last_name role
                     (Some s) date_from date_to skip limit w
        = (Ok (page (fun u => (others u && negb (User.is_locked u))%bool)),
           w')) /\
  (forall status : option string,
      status = None \/ status = Some "" ->
      exists w',
        search_users sql_lower str_lower
                     username email first_name last_name role
                     status date_from date_to skip limit w
        = (Ok (page others), w')).
Proof.
  intros Hp H page others.
  assert (Hlocked : forall s, s <> "" ->
            exists w',
              search_users sql_lower str_lower
                           username email first_name last_name role
                           (Some s) date_from date_to skip limit w
              = (Ok (page (fun u =>
                       (others u &&
                        Bool.eqb (User.is_locked u)
                                 (String.eqb (str_lower s) "locked"))%bool)),
                 w')).
  { intros s Hs.
    destruct (search_users_healthy w username email first_name last_name role
                (Some s) date_from date_to skip limit Hp H) as (w' & S & _).
    exists w'. rewrite S. unfold page. do 4 f_equal.
    apply List.filter_ext. intros u.
    now apply search_where_account_status. }
  split; [exact Hlocked|]. split.
  - intros s Hs Hne. destruct (Hlocked s Hs) as (w' & S).
    exists w'. rewrite S. unfold page. do 4 f_equal.
    apply List.filter_ext. intros u.
    apply String.eqb_neq in Hne. rewrite Hne.
    now destruct (User.is_locked u).
  - intros status Hst.
    destruct (search_users_healthy w username email first_name last_name role
                status date_from date_to skip limit Hp H) as (w' & S & _).
    exists w'. rewrite S. unfold page, others.
    destruct Hst as [-> | ->]; reflexivity.
Qed.

(** ** Creation *)

Lemma try_except_raise {A} (m : M A) h w e w' :
  m w = (Raise e, w') ->
  try_except m h w = match h e with
                     | Some k => k w'
                     | None => (Raise e, w')
                     end.
Proof. intros H. unfold try_except. now rewrite H. Qed.

(** C3: when an account is stored under exactly the email of the validated
    input, creation returns no account and the table is as before. *)
Theorem create_duplicate_email (w : World) (user_data : gmap string string)
        (email_service : EmailService) (validated : UserCreate.t)
        (u : User.t) :
  pending w = [] ->
  healthy w = true ->
  UserCreate_model_dump user_data = Some validated ->
  In u (rows w) ->
  User.email u = UserCreate.email validated ->
  exists w',
    create UserCreate_model_dump hash_password user_data email_service w
      = (Ok None, w') /\
    rows w' = rows w.
Proof.
  intros Hp H Hv Hin He.
  destruct (get_by_email_healthy (UserCreate.email validated) w Hp H)
    as (w1 & G & Hr1 & _).
  destruct (lookup_email_exists (rows w) u Hin) as (u0 & Hu0).
  rewrite He in Hu0. rewrite Hu0 in G.
  unfold create. rewrite Hv.
  erewrite try_except_raise.
  2:{ rewrite (bind_ok _ _ _ _ _ G). reflexivity. }
  eexists. split; [reflexivity|]. exact Hr1.
Qed.

(** No path through [create] reaches the email collaborator or sets a
    verification token, whatever the gateway does. *)
Lemma create_sends_nothing (w : World) (user_data : gmap string string)
      (email_service : EmailService) r w' :
  pending w = [] ->
  create UserCreate_model_dump hash_password user_data email_service w
    = (r, w') ->
  outbox w' = outbox w /\
  forall u, r = Ok (Some u) -> User.verification_token u = None.
Proof.
  intros Hp. unfold create, try_except.
  destruct (UserCreate_model_dump user_data) as [v|].
  2:{ intros [= <- <-]. split; [reflexivity | discriminate]. }
  destruct (fetch_user_total
              (fun u => String.eqb (User.email u) (UserCreate.email v)) w Hp)
    as (r1 & w1 & G1 & _ & _ & Hp1 & Ho1).
  unfold get_by_email at 1. rewrite (bind_ok _ _ _ _ _ G1).
  destruct r1 as [x|].
  { intros [= <- <-]. simpl. split; [exact Ho1 | discriminate]. }
  destruct (fetch_user_total
              (fun u => String.eqb (User.nickname u) (UserCreate.nickname v))
              w1 Hp1)
    as (r2 & w2 & G2 & _ & _ & Hp2 & Ho2).
  unfold get_by_nickname at 1. rewrite (bind_ok _ _ _ _ _ G2).
  destruct r2 as [x|].
  { intros [= <- <-]. simpl. split; [congruence | discriminate]. }
  unfold bind at 1. unfold User_init at 1.
  unfold bind at 1. unfold session_add at 1.
  unfold bind at 1. unfold session_commit, bind at 1.
  match goal with
  | |- context [round_trip ?x] =>
      destruct (round_trip x) as [[[]|e] w3] eqn:R;
      destruct (round_trip_frame _ _ _ R) as (_ & _ & Ho3 & _)
  end.
  - intros [= <- <-]. simpl. split.
    + simpl in Ho3. congruence.
    + now intros u [= <-].
  - assert (e = SQLAlchemyError) as ->.
    { unfold round_trip in R. destruct (trips _); [discriminate|].
      destruct (fails _); now inversion R. }
    intros [= <- <-]. split; [simpl in Ho3; congruence | discriminate].
Qed.

End Properties.

(** * The service on concrete worlds *)

(** ** Creation *)

(** C1 (the code departs from the claim): a successful [create] returns an
    account whose verification token is unset and queues nothing with the
    email collaborator it was given. *)
Theorem create_queues_no_verification_email :
  exists (u : User.t) (w' : World),
    create Fixture.model_dump Fixture.hash_password
           (Fixture.signup "new@x.com" "newbie" "Secret123!")
           outbox_email_service (Fixture.world [] [])
      = (Ok (Some u), w') /\
    rows w' = [u] /\
    User.verification_token u = None /\
    outbox w' = [].
Proof.
  eexists _, _. split; [vm_compute; reflexivity|]. repeat split.
Qed.

(** C2 (the code departs from the claim): when the commit of [delete]
    fails, the SQLAlchemyError leaves the service and nothing rolls the
    session back. *)
Theorem delete_commit_failure_escapes :
  exists w' : World,
    delete 1%N (Fixture.world [Fixture.alice]
                              [Fixture.slow; Fixture.slow; Fixture.broken])
      = (Raise SQLAlchemyError, w') /\
    rollbacks w' = 0%nat /\
    pending w' = [Deleted Fixture.alice].
Proof.
  eexists. split; [vm_compute; reflexivity|]. split; reflexivity.
Qed.

(** The same escape from the commits of [create] and [login_user], and from
    the unguarded [execute] of [count]. *)
Lemma create_commit_failure_escapes :
  exists w' : World,
    create Fixture.model_dump Fixture.hash_password
           (Fixture.signup "new@x.com" "newbie" "Secret123!")
           outbox_email_service
           (Fixture.world [] [Fixture.slow; Fixture.slow; Fixture.slow;
                              Fixture.slow; Fixture.broken])
      = (Raise SQLAlchemyError, w') /\
    rollbacks w' = 0%nat.
Proof.
  eexists. split; [vm_compute; reflexivity|]. reflexivity.
Qed.

Lemma login_commit_failure_escapes :
  exists w' : World,
    login_user Fixture.verify_password 3 "a@x.com" "Secret123!"
               (Fixture.world [Fixture.alice]
                              [Fixture.slow; Fixture.slow; Fixture.broken])
      = (Raise SQLAlchemyError, w') /\
    rollbacks w' = 0%nat.
Proof.
  eexists. split; [vm_compute; reflexivity|]. reflexivity.
Qed.

Lemma count_execute_failure_escapes :
  exists w' : World,
    count (Fixture.world [Fixture.alice] [Fixture.broken])
      = (Raise SQLAlchemyError, w') /\
    rollbacks w' = 0%nat.
Proof.
  eexists. split; [vm_compute; reflexivity|]. reflexivity.
Qed.

(** A failure inside [_execute_query] is absorbed: rolled back and answered
    with an empty result. *)
Lemma list_users_failure_absorbed :
  exists w' : World,
    list_users 0 10 (Fixture.world [Fixture.alice] [Fixture.broken])
      = (Ok [], w') /\
    rollbacks w' = 1%nat /\
    rows w' = [Fixture.alice].
Proof.
  eexists. split; [vm_compute; reflexivity|]. split; reflexivity.
Qed.

(** C3, as first stated, fails: with "a@x.com" registered, creating
    "A@X.com" succeeds and the table then holds both. *)
Lemma create_email_other_case_succeeds :
  exists (u : User.t) (w' : World),
    create Fixture.model_dump Fixture.hash_password
           (Fixture.signup "A@X.com" "b" "Other123!")
           outbox_email_service (Fixture.world [Fixture.alice] [])
      = (Ok (Some u), w') /\
    User.email Fixture.alice = "a@x.com" /\
    User.email u = "A@X.com" /\
    lower_ascii (User.email u) = lower_ascii (User.email Fixture.alice) /\
    rows w' = [Fixture.alice; u].
Proof.
  eexists _, _. split; [vm_compute; reflexivity|]. repeat split.
Qed.

Lemma create_duplicate_email_witness :
  exists w' : World,
    create Fixture.model_dump Fixture.hash_password
           (Fixture.signup "a@x.com" "b" "Other123!")
           outbox_email_service
           (Fixture.world [Fixture.alice] [Fixture.slow])
      = (Ok None, w') /\
    rows w' = rows (Fixture.world [Fixture.alice] [Fixture.slow]).
Proof.
  apply (create_duplicate_email Fixture.model_dump Fixture.hash_password
           (Fixture.world [Fixture.alice] [Fixture.slow])
           (Fixture.signup "a@x.com" "b" "Other123!")
           outbox_email_service
           (UserCreate.mk "a@x.com" "b" "Other123!" None None ANONYMOUS)
           Fixture.alice).
  - reflexivity.
  - reflexivity.
  - vm_compute. reflexivity.
  - simpl. left. reflexivity.
  - reflexivity.
Defined.

(** ** Login *)

Lemma login_user_correct_password_witness :
  exists (t : datetime) (u' : User.t) (w' : World),
    login_user Fixture.verify_password 3 "a@x.com" "Secret123!"
               (Fixture.world [Fixture.alice] [Fixture.slow; Fixture.slow])
      = (Ok (Some u'), w') /\
    u' = User.set_last_login_at (Some t)
           (User.set_failed_login_attempts 0 Fixture.alice) /\
    User.failed_login_attempts u' = 0 /\
    User.last_login_at u' = Some t /\
    clock (Fixture.world [Fixture.alice] [Fixture.slow; Fixture.slow]) <= t /\
    lookup_email "a@x.com" (rows w') = Some u' /\
    lookup_id (User.id Fixture.alice) (rows w') = Some u'.
Proof.
  apply (login_user_correct_password Fixture.verify_password 3
           (Fixture.world [Fixture.alice] [Fixture.slow; Fixture.slow])
           "a@x.com" "Secret123!" Fixture.alice); reflexivity.
Defined.

Lemma login_user_precheck_frame_witness :
  exists w' : World,
    login_user Fixture.verify_password 3 "carol@x.com" "wrong"
               (Fixture.world [Fixture.alice; Fixture.carol] [])
      = (Ok None, w') /\
    rows w' = [Fixture.alice; Fixture.carol] /\
    lookup_email "carol@x.com" (rows w') = Some Fixture.carol.
Proof.
  apply (login_user_precheck_frame Fixture.verify_password 3
           (Fixture.world [Fixture.alice; Fixture.carol] [])
           "carol@x.com" "wrong").
  - reflexivity.
  - right. exists Fixture.carol. split; [reflexivity|]. right. reflexivity.
Defined.

Lemma login_user_lockout_witness :
  exists (u' : User.t) (w' : World),
    login_attempts (login_user Fixture.verify_password 3 "a@x.com")
                   ["guess1"; "guess2"; "guess3"]
                   (Fixture.world [Fixture.alice] [])
      = (Ok [None; None; None], w') /\
    lookup_email "a@x.com" (rows w') = Some u' /\
    User.failed_login_attempts u' = 3 /\
    User.is_locked u' = true /\
    forall password : string,
      exists w'' : World,
        login_user Fixture.verify_password 3 "a@x.com" password w'
          = (Ok None, w'') /\
        rows w'' = rows w'.
Proof.
  apply (login_user_lockout Fixture.verify_password 3
           (Fixture.world [Fixture.alice] []) "a@x.com" Fixture.alice
           ["guess1"; "guess2"; "guess3"]);
    try reflexivity; try lia.
  repeat constructor.
Defined.

(** ** Email verification *)

Lemma verify_email_wrong_token_witness :
  exists w' : World,
    verify_email_with_token 2%N "tok-eve"
                            (Fixture.world [Fixture.alice; Fixture.bob] [])
      = (Ok false, w') /\
    rows w' = [Fixture.alice; Fixture.bob] /\
    lookup_id 2%N (rows w') = Some Fixture.bob.
Proof.
  apply (verify_email_wrong_token
           (Fixture.world [Fixture.alice; Fixture.bob] []) 2%N "tok-eve"
           Fixture.bob).
  - reflexivity.
  - reflexivity.
  - discriminate.
Defined.

Lemma verify_email_correct_token_witness :
  exists (u' : User.t) (w' : World),
    verify_email_with_token 2%N "tok-bob"
                            (Fixture.world [Fixture.alice; Fixture.bob] [])
      = (Ok true, w') /\
    lookup_id 2%N (rows w') = Some u' /\
    User.email_verified u' = true /\
    User.verification_token u' = None /\
    User.role u' = AUTHENTICATED /\
    forall token' : string,
      exists w'' : World,
        verify_email_with_token 2%N token' w' = (Ok false, w'') /\
        rows w'' = rows w'.
Proof.
  destruct (verify_email_correct_token
              (Fixture.world [Fixture.alice; Fixture.bob] []) 2%N "tok-bob"
              Fixture.bob eq_refl eq_refl eq_refl eq_refl eq_refl)
    as (u' & w' & V & Hl & Hv & Ht & Hr & _ & _ & Hnext).
  exists u', w'. repeat split; auto.
Defined.

(** ** Password reset *)

Lemma fixture_credentials (p : string) :
  Fixture.verify_password p (Fixture.hash_password p) = true.
Proof. unfold Fixture.verify_password. apply String.eqb_refl. Qed.

Lemma reset_password_unlocks_witness :
  (exists (u' : User.t) (w' : World),
      reset_password Fixture.hash_password 3%N "Fresh456!"
                     (Fixture.world [Fixture.alice; Fixture.carol] [])
        = (Ok true, w') /\
      lookup_id 3%N (rows w') = Some u' /\
      User.hashed_password u' = Fixture.hash_password "Fresh456!" /\
      User.failed_login_attempts u' = 0 /\
      User.is_locked u' = false /\
      exists (u'' : User.t) (w'' : World),
        login_user Fixture.verify_password 3 "carol@x.com" "Fresh456!" w'
          = (Ok (Some u''), w'') /\
        User.id u'' = 3%N) /\
  (exists w' : World,
      reset_password Fixture.hash_password 9%N "Fresh456!"
                     (Fixture.world [Fixture.alice; Fixture.carol] [])
        = (Ok false, w') /\
      rows w' = [Fixture.alice; Fixture.carol]).
Proof.
  split.
  - destruct (reset_password_unlocks Fixture.hash_password
                Fixture.verify_password 3
                (Fixture.world [Fixture.alice; Fixture.carol] []) 3%N
                "Fresh456!" eq_refl eq_refl fixture_credentials)
      as (Hfound & _).
    destruct (Hfound Fixture.carol eq_refl)
      as (u' & w' & R & Hl & Hh & Hf & Hk & Hlogin).
    exists u', w'.
    split; [exact R|]. split; [exact Hl|]. split; [exact Hh|].
    split; [exact Hf|]. split; [exact Hk|].
    exact (Hlogin eq_refl eq_refl).
  - destruct (reset_password_unlocks Fixture.hash_password
                Fixture.verify_password 3
                (Fixture.world [Fixture.alice; Fixture.carol] []) 9%N
                "Fresh456!" eq_refl eq_refl fixture_credentials)
      as (_ & Hmissing).
    exact (Hmissing eq_refl).
Defined.

(** ** Search *)

Lemma search_users_account_status_witness :
  (exists w' : World,
      search_users Fixture.lower Fixture.str_lower None None None None None
                   (Some "LoCkEd") None None 0 10
                   (Fixture.world [Fixture.alice; Fixture.carol] [])
        = (Ok [to_response Fixture.carol], w')) /\
  (exists w' : World,
      search_users Fixture.lower Fixture.str_lower None None None None None
                   (Some ("loc" ++ Fixture.kelvin_sign ++ "ed")) None None 0 10
                   (Fixture.world [Fixture.alice; Fixture.carol] [])
        = (Ok [to_response Fixture.carol], w')) /\
  (exists w' : World,
      search_users Fixture.lower Fixture.str_lower None None None None None
                   (Some "Active") None None 0 10
                   (Fixture.world [Fixture.alice; Fixture.carol] [])
        = (Ok [to_response Fixture.alice], w')) /\
  (exists w' : World,
      search_users Fixture.lower Fixture.str_lower None None None None None
                   (Some "banana") None None 0 10
                   (Fixture.world [Fixture.alice; Fixture.carol] [])
        = (Ok [to_response Fixture.alice], w')) /\
  (exists w' : World,
      search_users Fixture.lower Fixture.str_lower None None None None None
                   (Some "") None None 0 10
                   (Fixture.world [Fixture.alice; Fixture.carol] [])
        = (Ok [to_response Fixture.alice; to_response Fixture.carol], w')).
Proof.
  destruct (search_users_account_status Fixture.lower Fixture.str_lower
              (Fixture.world [Fixture.alice; Fixture.carol] [])
              None None None None None None None 0 10 eq_refl eq_refl)
    as (Hany & Hother & Hnone).
  split; [|split; [|split; [|split]]].
  - apply (Hany "LoCkEd"). discriminate.
  - apply (Hany ("loc" ++ Fixture.kelvin_sign ++ "ed")). discriminate.
  - apply (Hother "Active"); [discriminate | vm_compute; discriminate].
  - apply (Hother "banana"); [discriminate | vm_compute; discriminate].
  - apply (Hnone (Some "")). right. reflexivity.
Defined.


(** * The other operations *)

(** ** More about the table *)

Lemma lookup_id_upsert_other (u : User.t) (j : UUID) (l : list User.t) :
  j <> User.id u ->
  lookup_id j (upsert u l) = lookup_id j l.
Proof.
  unfold lookup_id. intros Hj.
  assert (Hu : N.eqb (User.id u) j = false) by (apply N.eqb_neq; congruence).
  induction l as [|x l IH]; simpl.
  - now rewrite Hu.
  - destruct (N.eqb (User.id x) (User.id u)) eqn:E; simpl.
    + apply N.eqb_eq in E. rewrite Hu.
      rewrite E. now rewrite Hu.
    + destruct (N.eqb (User.id x) j); [reflexivity | exact IH].
Qed.

Lemma lookup_id_remove (u : User.t) (l : list User.t) :
  lookup_id (User.id u) (remove u l) = None.
Proof.
  unfold lookup_id, remove.
  induction l as [|x l IH]; simpl; [reflexivity|].
  destruct (N.eqb (User.id x) (User.id u)) eqn:E; simpl; [exact IH|].
  now rewrite E.
Qed.

Lemma lookup_id_remove_other (u : User.t) (j : UUID) (l : list User.t) :
  j <> User.id u ->
  lookup_id j (remove u l) = lookup_id j l.
Proof.
  unfold lookup_id, remove. intros Hj.
  induction l as [|x l IH]; simpl; [reflexivity|].
  destruct (N.eqb (User.id x) (User.id u)) eqn:E; simpl.
  - apply N.eqb_eq in E.
    assert (N.eqb (User.id x) j = false) as ->
        by (apply N.eqb_neq; congruence).
    exact IH.
  - destruct (N.eqb (User.id x) j); [reflexivity | exact IH].
Qed.

Lemma upsert_fresh (u : User.t) (l : list User.t) :
  forallb (fun x => negb (N.eqb (User.id x) (User.id u))) l = true ->
  upsert u l = (l ++ [u])%list.
Proof.
  induction l as [|x l IH]; simpl; [reflexivity|].
  intros H. apply andb_true_iff in H as [Hx Hl].
  apply negb_true_iff in Hx. rewrite Hx. now rewrite IH.
Qed.

Lemma find_app_none {A} (p : A -> bool) (l : list A) (x : A) :
  List.find p l = None -> List.find p (l ++ [x])%list = List.find p [x].
Proof.
  induction l as [|y l IH]; simpl; [reflexivity|].
  destruct (p y); [discriminate | exact IH].
Qed.

Lemma window_length (skip limit : nat) (l : list User.t) :
  (List.length (window (Some skip) (Some limit) l) <= limit)%nat.
Proof. unfold window. apply firstn_le_length. Qed.

Lemma window_incl (skip limit : nat) (l : list User.t) (x : User.t) :
  In x (window (Some skip) (Some limit) l) -> In x l.
Proof.
  unfold window. intros H.
  rewrite <- (firstn_skipn skip l). apply in_or_app. right.
  rewrite <- (firstn_skipn limit (skipn skip l)). apply in_or_app. now left.
Qed.

(** ** Round trips, with the bookkeeping *)

Lemma round_trip_cases w r w' :
  round_trip w = (r, w') ->
  rows w' = rows w /\ pending w' = pending w /\ outbox w' = outbox w /\
  next_uuid w' = next_uuid w /\ rollbacks w' = rollbacks w /\
  log w' = log w /\
  (healthy w' = false -> healthy w = false) /\
  (r = Ok tt \/ (r = Raise SQLAlchemyError /\ healthy w = false)).
Proof.
  unfold round_trip, healthy.
  destruct (trips w) as [|t ts] eqn:T.
  - intros [= <- <-]. rewrite T. repeat split; auto.
  - destruct (fails t) eqn:F; intros [= <- <-]; simpl; rewrite ?F;
      repeat split; auto.
Qed.

(** X1: [_execute_query] always returns.  It answers
    from the table, or, only when the gateway fails, with [None] after one
    rollback and one logged error; the table is the same either way. *)
Theorem execute_query_absorbs (q : Query) (w : World) :
  pending w = [] ->
  exists (r : option Result) (w' : World),
    _execute_query q w = (Ok r, w') /\
    rows w' = rows w /\ pending w' = [] /\
    ((r = Some (run_query q (rows w)) /\
      rollbacks w' = rollbacks w /\ log w' = log w)
     \/
     (r = None /\ healthy w = false /\
      rollbacks w' = S (rollbacks w) /\ log w' = ERROR :: log w)).
Proof.
  intros Hp.
  unfold _execute_query, try_except, bind, session_execute, session_commit, bind.
  destruct (round_trip w) as [r1 w1] eqn:R1.
  destruct (round_trip_cases _ _ _ R1)
    as (Hr1 & Hp1 & _ & _ & Hb1 & Hl1 & Hm1 & [-> | [-> Hh1]]).
  - unfold ret at 1.
    destruct (round_trip w1) as [r2 w2] eqn:R2.
    destruct (round_trip_cases _ _ _ R2)
      as (Hr2 & Hp2 & _ & _ & Hb2 & Hl2 & _ & [-> | [-> Hh2]]).
    + eexists _, _. split; [reflexivity|]. simpl.
      rewrite Hp2, Hp1, Hp, Hr2, Hr1, Hb2, Hb1, Hl2, Hl1. simpl.
      split; [reflexivity|]. split; [reflexivity|]. left. auto.
    + eexists _, _. split; [reflexivity|]. simpl.
      rewrite Hr2, Hr1, Hb2, Hb1, Hl2, Hl1.
      split; [reflexivity|]. split; [reflexivity|]. right.
      repeat split; auto.
  - eexists _, _. split; [reflexivity|]. simpl.
    rewrite Hr1, Hb1, Hl1.
    split; [reflexivity|]. split; [reflexivity|]. right. auto.
Qed.

(** ** Deleting *)

Lemma delete_commit_healthy {A} (u : User.t) (x : A) w :
  pending w = [] -> healthy w = true ->
  exists w', (session_delete u ;;; session_commit ;;; ret x) w = (Ok x, w') /\
             rows w' = remove u (rows w) /\ pending w' = [] /\ calm w w'.
Proof.
  intros Hp H.
  destruct (session_delete u w) as [r w1] eqn:S.
  assert (S' : session_delete u w = (Ok tt, w1)) by (rewrite S; now inversion S).
  assert (Hw : rows w1 = rows w /\ pending w1 = [Deleted u] /\ calm w w1).
  { inversion S; subst w1. unfold calm, healthy. simpl. rewrite Hp.
    repeat split; auto. lia. }
  destruct Hw as (Hr1 & Hp1 & Hc1).
  destruct (session_commit_healthy w1 (proj2 (proj2 (proj2 Hc1))))
    as (w2 & C & Hr2 & Hp2 & _ & _ & Hc2).
  exists w2. split.
  - rewrite (bind_ok _ _ _ _ _ S'), (bind_ok _ _ _ _ _ C). reflexivity.
  - rewrite Hr2, Hp1, Hr1. simpl.
    split; [reflexivity | split; [exact Hp2 | eapply calm_trans; eauto]].
Qed.

(** X2: Deleting an id that is not stored answers [False] and leaves the table
    alone, whatever the gateway does. *)
Theorem delete_missing_id (w : World) (user_id : UUID) :
  pending w = [] ->
  lookup_id user_id (rows w) = None ->
  exists w', delete user_id w = (Ok false, w') /\ rows w' = rows w.
Proof.
  intros Hp Hl.
  destruct (fetch_user_total (fun u => N.eqb (User.id u) user_id) w Hp)
    as (r & w1 & G & Hr & Hrows & _).
  assert (r = None) as -> by (destruct Hr as [-> | ->]; [reflexivity | exact Hl]).
  unfold delete, get_by_id. rewrite (bind_ok _ _ _ _ _ G).
  eexists. split; [reflexivity|]. exact Hrows.
Qed.

(** X3: Deleting a stored account answers [True]; the id is then not found, by
    the table and by [get_by_id], and every other id reads as before. *)
Theorem delete_existing_id (w : World) (user_id : UUID) (u : User.t) :
  pending w = [] ->
  healthy w = true ->
  lookup_id user_id (rows w) = Some u ->
  exists w',
    delete user_id w = (Ok true, w') /\
    lookup_id user_id (rows w') = None /\
    (forall j, j <> user_id -> lookup_id j (rows w') = lookup_id j (rows w)) /\
    exists w'', get_by_id user_id w' = (Ok None, w'').
Proof.
  intros Hp H Hl.
  destruct (get_by_id_healthy user_id w Hp H) as (w1 & G & Hr1 & Hp1 & Hc1).
  destruct (delete_commit_healthy u true w1 Hp1 (proj2 (proj2 (proj2 Hc1))))
    as (w2 & D & Hr2 & Hp2 & Hc2).
  assert (Hid : User.id u = user_id) by apply (lookup_id_some _ _ _ Hl).
  assert (Hgone : lookup_id user_id (rows w2) = None).
  { rewrite Hr2, Hr1, <- Hid. apply lookup_id_remove. }
  exists w2. split.
  - unfold delete. rewrite (bind_ok _ _ _ _ _ G), Hl. exact D.
  - split; [exact Hgone|]. split.
    + intros j Hj. rewrite Hr2, Hr1. apply lookup_id_remove_other. congruence.
    + destruct (get_by_id_healthy user_id w2 Hp2 (proj2 (proj2 (proj2 Hc2))))
        as (w3 & G3 & _).
      exists w3. now rewrite G3, Hgone.
Qed.

(** ** Unlocking *)

(** X4: Unlocking a locked account answers [True], clears the lock and the
    failure counter, and touches nothing else of it nor any other account. *)
Theorem unlock_user_account_locked (w : World) (user_id : UUID) (u : User.t) :
  pending w = [] ->
  healthy w = true ->
  lookup_id user_id (rows w) = Some u ->
  User.is_locked u = true ->
  exists (u' : User.t) (w' : World),
    unlock_user_account user_id w = (Ok true, w') /\
    lookup_id user_id (rows w') = Some u' /\
    u' = User.set_failed_login_attempts 0 (User.set_is_locked false u) /\
    User.is_locked u' = false /\
    User.failed_login_attempts u' = 0 /\
    (forall j, j <> user_id -> lookup_id j (rows w') = lookup_id j (rows w)).
Proof.
  intros Hp H Hl Hk.
  destruct (get_by_id_healthy user_id w Hp H) as (w1 & G & Hr1 & Hp1 & Hc1).
  set (u' := User.set_failed_login_attempts 0 (User.set_is_locked false u)).
  destruct (add_commit_healthy u' true w1 Hp1 (proj2 (proj2 (proj2 Hc1))))
    as (w2 & A & Hr2 & Hp2 & Hc2).
  assert (Hid : User.id u' = user_id) by apply (lookup_id_some _ _ _ Hl).
  exists u', w2. split.
  - unfold unlock_user_account. rewrite (bind_ok _ _ _ _ _ G), Hl, Hk. exact A.
  - split; [rewrite Hr2, <- Hid; apply lookup_id_upsert|].
    split; [reflexivity|]. split; [reflexivity|]. split; [reflexivity|].
    intros j Hj. rewrite Hr2, Hr1. apply lookup_id_upsert_other. congruence.
Qed.

(** X5: Unlocking answers [False] and changes nothing when the account is not
    locked or not stored, whatever the gateway does. *)
Theorem unlock_user_account_refused (w : World) (user_id : UUID) :
  pending w = [] ->
  (forall u, lookup_id user_id (rows w) = Some u -> User.is_locked u = false) ->
  exists w', unlock_user_account user_id w = (Ok false, w') /\
             rows w' = rows w.
Proof.
  intros Hp Hpre.
  destruct (fetch_user_total (fun u => N.eqb (User.id u) user_id) w Hp)
    as (r & w1 & G & Hr & Hrows & _).
  exists w1. split; [|exact Hrows].
  unfold unlock_user_account, get_by_id. rewrite (bind_ok _ _ _ _ _ G).
  destruct r as [u|]; [|reflexivity].
  destruct Hr as [Hr|Hr]; [discriminate|].
  now rewrite (Hpre u (eq_sym Hr)).
Qed.

(** ** Reading the lock *)

(** X6: [is_account_locked] never raises and never writes; on a working gateway
    it answers the account's lock, and [False] for an email that is not
    stored. *)
Theorem is_account_locked_reads (w : World) (email : string) :
  pending w = [] ->
  exists (b : bool) (w' : World),
    is_account_locked email w = (Ok b, w') /\
    rows w' = rows w /\
    (lookup_email email (rows w) = None -> b = false) /\
    (healthy w = true ->
     b = match lookup_email email (rows w) with
         | Some u => User.is_locked u
         | None => false
         end).
Proof.
  intros Hp.
  destruct (fetch_user_total (fun u => String.eqb (User.email u) email) w Hp)
    as (r & w1 & G & Hr & Hrows & _).
  unfold is_account_locked, get_by_email. rewrite (bind_ok _ _ _ _ _ G).
  eexists _, w1. split; [reflexivity|]. split; [exact Hrows|]. split.
  - intros Hn. destruct Hr as [-> | ->]; [reflexivity|].
    unfold lookup_email in Hn. now rewrite Hn.
  - intros H.
    destruct (fetch_user_healthy (fun u => String.eqb (User.email u) email)
                w Hp H) as (w2 & G2 & _).
    rewrite G in G2. injection G2 as -> _. reflexivity.
Qed.

(** ** Listing *)

Lemma filter_all (l : list User.t) : List.filter (fun _ => true) l = l.
Proof. induction l as [|x l IH]; simpl; [reflexivity | now rewrite IH]. Qed.

(** X7: [list_users] never raises and never writes; it returns at most [limit]
    stored accounts, and on a working gateway exactly the [limit] accounts
    that follow the first [skip], in storage order. *)
Theorem list_users_page (w : World) (skip limit : nat) :
  pending w = [] ->
  exists (l : list User.t) (w' : World),
    list_users skip limit w = (Ok l, w') /\
    rows w' = rows w /\
    (List.length l <= limit)%nat /\
    (forall u, In u l -> In u (rows w)) /\
    (healthy w = true -> l = firstn limit (skipn skip (rows w))).
Proof.
  intros Hp.
  destruct (execute_query_total
              (Select (fun _ => true) (Some skip) (Some limit)) w Hp)
    as (r & w1 & E & Hr & Hrows & _).
  unfold list_users. rewrite (bind_ok _ _ _ _ _ E).
  eexists _, w1. split; [reflexivity|]. split; [exact Hrows|].
  assert (Hpage : match r with
                  | Some r0 => scalars_all r0
                  | None => []
                  end = [] \/
                  match r with
                  | Some r0 => scalars_all r0
                  | None => []
                  end = firstn limit (skipn skip (rows w))).
  { destruct Hr as [-> | ->]; [now left | right].
    simpl. unfold window. now rewrite filter_all. }
  split; [|split].
  - destruct Hpage as [-> | ->]; [simpl; lia | apply firstn_le_length].
  - intros u Hu. destruct Hpage as [Hq | Hq]; rewrite Hq in Hu; [easy|].
    apply (window_incl skip limit). exact Hu.
  - intros H.
    destruct (execute_query_healthy
                (Select (fun _ => true) (Some skip) (Some limit)) w Hp H)
      as (w2 & E2 & _).
    rewrite E in E2. injection E2 as -> _.
    simpl. unfold window. now rewrite filter_all.
Qed.

(** ** Searching *)

Section Searching.

Variable sql_lower : string -> string.
Variable str_lower : string -> string.

(** What [search_users] returns, whatever the gateway does: the page of the
    matching accounts, or nothing after a failure. *)
Lemma search_users_results (w : World)
      (username email first_name last_name role account_status : option string)
      (date_from date_to : option datetime) (skip limit : nat) :
  pending w = [] ->
  exists (l : list UserResponse.t) (w' : World),
    search_users sql_lower str_lower username email first_name last_name role
                 account_status date_from date_to skip limit w
      = (Ok l, w') /\
    rows w' = rows w /\
    (l = [] \/
     l = List.map to_response
           (window (Some skip) (Some limit)
              (List.filter
                 (search_where sql_lower str_lower
                               username email first_name last_name
                               role account_status date_from date_to)
                 (rows w)))).
Proof.
  intros Hp.
  set (p := search_where sql_lower str_lower
                         username email first_name last_name role
                         account_status date_from date_to).
  destruct (execute_query_total (Select p (Some skip) (Some limit)) w Hp)
    as (r & w1 & E & Hr & Hrows & _).
  unfold search_users. fold p. rewrite (bind_ok _ _ _ _ _ E).
  eexists _, w1. split; [reflexivity|]. split; [exact Hrows|].
  destruct Hr as [-> | ->]; [now left | now right].
Qed.

Lemma search_users_results_in (p : User.t -> bool) (skip limit : nat)
      (table : list User.t) (l : list UserResponse.t) (r : UserResponse.t) :
  l = [] \/
  l = List.map to_response
        (window (Some skip) (Some limit) (List.filter p table)) ->
  In r l ->
  exists u, In u table /\ r = to_response u /\ p u = true.
Proof.
  intros [-> | ->] Hin; [easy|].
  apply in_map_iff in Hin as (u & <- & Hu).
  apply window_incl in Hu. apply filter_In in Hu as [Hu Hpu].
  exists u. auto.
Qed.

(** X8: [search_users] never raises and never writes.  What it returns are at
    most [limit] responses, each built from a stored account that passes
    every filter given. *)
Theorem search_users_bounded (w : World)
        (username email first_name last_name role account_status : option string)
        (date_from date_to : option datetime) (skip limit : nat) :
  pending w = [] ->
  exists (l : list UserResponse.t) (w' : World),
    search_users sql_lower str_lower username email first_name last_name role
                 account_status date_from date_to skip limit w
      = (Ok l, w') /\
    rows w' = rows w /\
    (List.length l <= limit)%nat /\
    forall r, In r l ->
      exists u, In u (rows w) /\ r = to_response u /\
                search_where sql_lower str_lower
                             username email first_name last_name
                             role account_status date_from date_to u = true.
Proof.
  intros Hp.
  destruct (search_users_results w username email first_name last_name role
              account_status date_from date_to skip limit Hp)
    as (l & w' & S & Hrows & Hl).
  exists l, w'. split; [exact S|]. split; [exact Hrows|]. split.
  - destruct Hl as [-> | ->]; [simpl; lia|].
    rewrite length_map. apply window_length.
  - intros r Hr. exact (search_users_results_in _ _ _ _ _ _ Hl Hr).
Qed.

(** X9: the status a response shows agrees with the status asked for: with
    a non-empty [account_status] s every response reads "Locked" when
    [s.lower()] is "locked" and "Active" otherwise. *)
Theorem search_users_status_label (w : World)
        (username email first_name last_name role : option string)
        (s : string) (date_from date_to : option datetime)
        (skip limit : nat) :
  pending w = [] ->
  s <> "" ->
  exists (l : list UserResponse.t) (w' : World),
    search_users sql_lower str_lower username email first_name last_name role
                 (Some s) date_from date_to skip limit w
      = (Ok l, w') /\
    forall r, In r l ->
      UserResponse.account_status r
      = if String.eqb (str_lower s) "locked" then "Locked" else "Active".
Proof.
  intros Hp Hs.
  destruct (search_users_results w username email first_name last_name role
              (Some s) date_from date_to skip limit Hp)
    as (l & w' & S & _ & Hl).
  exists l, w'. split; [exact S|].
  intros r Hr.
  destruct (search_users_results_in _ _ _ _ _ _ Hl Hr) as (u & _ & -> & Hu).
  rewrite (search_where_account_status sql_lower str_lower) in Hu by exact Hs.
  apply andb_true_iff in Hu as [_ Hu]. apply eqb_prop in Hu.
  simpl. rewrite Hu. now destruct (String.eqb (str_lower s) "locked").
Qed.

End Searching.

(** ** Creating *)

Lemma lookup_email_appended (e : string) (l : list User.t) (u : User.t) :
  lookup_email e l = None ->
  User.email u = e ->
  lookup_email e (l ++ [u])%list = Some u.
Proof.
  intros Hl He. unfold lookup_email in *.
  rewrite (find_app_none _ _ _ Hl). simpl.
  now rewrite He, String.eqb_refl.
Qed.

Lemma lookup_id_appended (w : World) (u : User.t) :
  fresh_uuid w = true ->
  User.id u = next_uuid w ->
  lookup_id (User.id u) (rows w ++ [u])%list = Some u.
Proof.
  intros Hfresh Hid. unfold lookup_id, fresh_uuid in *.
  assert (Hnone : List.find (fun x => N.eqb (User.id x) (User.id u)) (rows w)
                  = None).
  { rewrite Hid. clear -Hfresh.
    induction (rows w) as [|y l IH]; [reflexivity|].
    simpl in *. apply andb_true_iff in Hfresh as [Hy Hl].
    apply negb_true_iff in Hy. rewrite Hy. now apply IH. }
  rewrite (find_app_none _ _ _ Hnone). simpl. now rewrite N.eqb_refl.
Qed.

Section Creating.

Variable UserCreate_model_dump : gmap string string -> option UserCreate.t.
Variable hash_password : string -> string.

(** Input the schema rejects: no account, no round trip to the database, one
    logged error. *)
Lemma create_invalid_input (w : World) (user_data : gmap string string)
        (email_service : EmailService) :
  UserCreate_model_dump user_data = None ->
  exists w',
    create UserCreate_model_dump hash_password user_data email_service w
      = (Ok None, w') /\
    rows w' = rows w /\ pending w' = pending w /\ trips w' = trips w /\
    log w' = ERROR :: log w.
Proof.
  intros Hv. unfold create. rewrite Hv.
  eexists. split; [reflexivity|]. repeat split.
Qed.

(** X10: A nickname that is taken: no account, the table as before. *)
Theorem create_duplicate_nickname (w : World) (user_data : gmap string string)
        (email_service : EmailService) (validated : UserCreate.t)
        (u : User.t) :
  pending w = [] ->
  healthy w = true ->
  UserCreate_model_dump user_data = Some validated ->
  lookup_email (UserCreate.email validated) (rows w) = None ->
  lookup_nickname (UserCreate.nickname validated) (rows w) = Some u ->
  exists w',
    create UserCreate_model_dump hash_password user_data email_service w
      = (Ok None, w') /\
    rows w' = rows w.
Proof.
  intros Hp H Hv He Hn.
  destruct (get_by_email_healthy (UserCreate.email validated) w Hp H)
    as (w1 & G1 & Hr1 & Hp1 & Hc1).
  destruct (fetch_user_healthy
              (fun x => String.eqb (User.nickname x)
                                   (UserCreate.nickname validated))
              w1 Hp1 (proj2 (proj2 (proj2 Hc1))))
    as (w2 & G2 & Hr2 & _).
  rewrite He in G1. rewrite Hr1 in G2.
  unfold lookup_nickname in Hn. rewrite Hn in G2.
  unfold create. rewrite Hv.
  erewrite try_except_raise.
  2:{ rewrite (bind_ok _ _ _ _ _ G1).
      unfold get_by_nickname. rewrite (bind_ok _ _ _ _ _ G2). reflexivity. }
  eexists. split; [reflexivity|]. simpl. congruence.
Qed.

(** A valid input whose email and nickname are free: the new account, built
    from the input and the model's defaults, is appended to the table. *)
Lemma create_appends (w : World) (user_data : gmap string string)
      (email_service : EmailService) (validated : UserCreate.t) :
  pending w = [] ->
  healthy w = true ->
  fresh_uuid w = true ->
  UserCreate_model_dump user_data = Some validated ->
  lookup_email (UserCreate.email validated) (rows w) = None ->
  lookup_nickname (UserCreate.nickname validated) (rows w) = None ->
  exists (t : datetime) (w' : World),
    let u := User.mk (next_uuid w) (UserCreate.email validated)
                     (UserCreate.nickname validated)
                     (UserCreate.first_name validated)
                     (UserCreate.last_name validated)
                     (hash_password (UserCreate.password validated))
                     (UserCreate.role validated) false false None false 0
                     None t in
    create UserCreate_model_dump hash_password user_data email_service w
      = (Ok (Some u), w') /\
    rows w' = (rows w ++ [u])%list /\
    pending w' = [] /\ healthy w' = true.
Proof.
  intros Hp H Hfresh Hv He Hn.
  destruct (get_by_email_healthy (UserCreate.email validated) w Hp H)
    as (w1 & G1 & Hr1 & Hp1 & Hc1).
  destruct (fetch_user_healthy
              (fun x => String.eqb (User.nickname x)
                                   (UserCreate.nickname validated))
              w1 Hp1 (proj2 (proj2 (proj2 Hc1))))
    as (w2 & G2 & Hr2 & Hp2 & Hc2).
  rewrite He in G1. rewrite Hr1 in G2.
  unfold lookup_nickname in Hn. rewrite Hn in G2.
  destruct (User_init validated
              (hash_password (UserCreate.password validated)) w2)
    as [ru w3] eqn:I.
  unfold User_init in I. injection I as <- <-.
  set (u := User.mk (next_uuid w2) (UserCreate.email validated)
                    (UserCreate.nickname validated)
                    (UserCreate.first_name validated)
                    (UserCreate.last_name validated)
                    (hash_password (UserCreate.password validated))
                    (UserCreate.role validated) false false None false 0 None
                    (clock w2)).
  set (w3 := {| rows := rows w2; pending := pending w2; trips := trips w2;
                clock := clock w2; next_uuid := N.succ (next_uuid w2);
                rollbacks := rollbacks w2; outbox := outbox w2;
                log := log w2 |}).
  assert (Hh3 : healthy w3 = true) by apply Hc2.
  destruct (add_commit_healthy u (Some u) w3 Hp2 Hh3)
    as (w4 & A & Hr4 & Hp4 & Hc4).
  assert (Hnext : next_uuid w2 = next_uuid w).
  { destruct Hc1 as (_ & N1 & _). destruct Hc2 as (_ & N2 & _). congruence. }
  assert (Hrows : rows w4 = (rows w ++ [u])%list).
  { rewrite Hr4. change (rows w3) with (rows w2). rewrite Hr2, Hr1.
    apply upsert_fresh. unfold fresh_uuid in Hfresh.
    change (User.id u) with (next_uuid w2). now rewrite Hnext. }
  exists (clock w2), w4. cbv zeta. rewrite <- Hnext. fold u. split.
  - unfold create. apply try_except_ok. rewrite Hv.
    rewrite (bind_ok _ _ _ _ _ G1).
    unfold get_by_nickname. rewrite (bind_ok _ _ _ _ _ G2).
    unfold bind at 1. unfold User_init at 1. fold u w3. exact A.
  - split; [exact Hrows|]. split; [exact Hp4 | apply Hc4].
Qed.


(** X11: A valid input whose email and nickname are free: the account returned
    is appended to the table with the hash of the password, unverified,
    unlocked and with no failed attempts, and is the one found under its
    email and its id afterwards. *)
Theorem create_persists (w : World) (user_data : gmap string string)
        (email_service : EmailService) (validated : UserCreate.t) :
  pending w = [] ->
  healthy w = true ->
  fresh_uuid w = true ->
  UserCreate_model_dump user_data = Some validated ->
  lookup_email (UserCreate.email validated) (rows w) = None ->
  lookup_nickname (UserCreate.nickname validated) (rows w) = None ->
  exists (u : User.t) (w' : World),
    create UserCreate_model_dump hash_password user_data email_service w
      = (Ok (Some u), w') /\
    rows w' = (rows w ++ [u])%list /\
    User.email u = UserCreate.email validated /\
    User.nickname u = UserCreate.nickname validated /\
    User.hashed_password u = hash_password (UserCreate.password validated) /\
    User.email_verified u = false /\
    User.is_locked u = false /\
    User.failed_login_attempts u = 0 /\
    lookup_email (UserCreate.email validated) (rows w') = Some u /\
    lookup_id (User.id u) (rows w') = Some u /\
    pending w' = [] /\ healthy w' = true.
Proof.
  intros Hp H Hfresh Hv He Hn.
  destruct (create_appends w user_data email_service validated
              Hp H Hfresh Hv He Hn)
    as (t & w' & C & Hrows & Hp' & Hh').
  cbv zeta in C, Hrows.
  eexists _, w'. split; [exact C|]. split; [exact Hrows|].
  do 6 (split; [reflexivity|]).
  split; [|split; [|split; [exact Hp' | exact Hh']]].
  - rewrite Hrows. now apply lookup_email_appended.
  - rewrite Hrows. now apply lookup_id_appended.
Qed.

End Creating.

(** ** Counting *)

(** On a working gateway [count] answers the number of stored accounts and
    writes nothing. *)
Lemma count_healthy (w : World) :
  healthy w = true ->
  exists w', count w = (Ok (Z.of_nat (List.length (rows w))), w') /\
             rows w' = rows w /\ pending w' = pending w /\
             healthy w' = true.
Proof.
  intros H.
  destruct (session_execute_healthy SelectCount w H)
    as (w1 & E & Hr & Hp & _ & _ & Hc).
  exists w1. split.
  - unfold count. now rewrite (bind_ok _ _ _ _ _ E).
  - split; [exact Hr|]. split; [exact Hp | apply Hc].
Qed.

Lemma remove_length (u : User.t) (l : list User.t) :
  (List.length (remove u l)
   + List.length (List.filter (fun x => N.eqb (User.id x) (User.id u)) l)
   = List.length l)%nat.
Proof.
  unfold remove. induction l as [|x l IH]; simpl; [reflexivity|].
  destruct (N.eqb (User.id x) (User.id u)); simpl; lia.
Qed.

Section Composing.

Variable UserCreate_model_dump : gmap string string -> option UserCreate.t.
Variable hash_password : string -> string.
Variable verify_password : string -> string -> bool.
Variable max_login_attempts : Z.

(** X12: [count] follows the table: one more after a successful [create]. *)
Theorem count_after_create (w : World) (user_data : gmap string string)
        (email_service : EmailService) (validated : UserCreate.t) :
  pending w = [] ->
  healthy w = true ->
  fresh_uuid w = true ->
  UserCreate_model_dump user_data = Some validated ->
  lookup_email (UserCreate.email validated) (rows w) = None ->
  lookup_nickname (UserCreate.nickname validated) (rows w) = None ->
  exists (u : User.t) (w' w'' : World),
    create UserCreate_model_dump hash_password user_data email_service w
      = (Ok (Some u), w') /\
    count w' = (Ok (Z.of_nat (List.length (rows w)) + 1), w'').
Proof.
  intros Hp H Hf Hv He Hn.
  destruct (create_appends UserCreate_model_dump hash_password w user_data
              email_service validated Hp H Hf Hv He Hn)
    as (t & w' & C & Hrows & _ & Hh').
  cbv zeta in C, Hrows.
  destruct (count_healthy w' Hh') as (w'' & K & _).
  eexists _, w', w''. split; [exact C|].
  rewrite K, Hrows, length_app. simpl. do 2 f_equal. lia.
Qed.

(** X13: [count] follows the table: one less after deleting the one account that
    carries the id. *)
Theorem count_after_delete (w : World) (user_id : UUID) (u : User.t) :
  pending w = [] ->
  healthy w = true ->
  List.filter (fun x => N.eqb (User.id x) user_id) (rows w) = [u] ->
  exists (w' w'' : World),
    delete user_id w = (Ok true, w') /\
    count w' = (Ok (Z.of_nat (List.length (rows w)) - 1), w'').
Proof.
  intros Hp H Hone.
  assert (Hl : lookup_id user_id (rows w) = Some u).
  { unfold lookup_id. rewrite <- first_of_filter, Hone. reflexivity. }
  assert (Hid : User.id u = user_id) by apply (lookup_id_some _ _ _ Hl).
  destruct (get_by_id_healthy user_id w Hp H) as (w1 & G & Hr1 & Hp1 & Hc1).
  destruct (delete_commit_healthy u true w1 Hp1 (proj2 (proj2 (proj2 Hc1))))
    as (w2 & D & Hr2 & Hp2 & Hc2).
  destruct (count_healthy w2 (proj2 (proj2 (proj2 Hc2)))) as (w3 & K & _).
  exists w2, w3. split.
  - unfold delete. rewrite (bind_ok _ _ _ _ _ G), Hl. exact D.
  - rewrite K, Hr2, Hr1. do 2 f_equal.
    pose proof (remove_length u (rows w)) as L.
    rewrite Hid, Hone in L. simpl in L. lia.
Qed.

(** A wrong password on a verified, unlocked account: what is written. *)
Lemma login_user_rejects (w : World) (email password : string) (u : User.t) :
  pending w = [] ->
  healthy w = true ->
  lookup_email email (rows w) = Some u ->
  User.email_verified u = true ->
  User.is_locked u = false ->
  verify_password password (User.hashed_password u) = false ->
  exists w' : World,
    let n := User.failed_login_attempts u + 1 in
    let u' := User.set_is_locked (Z.leb max_login_attempts n)
                (User.set_failed_login_attempts n u) in
    login_user verify_password max_login_attempts email password w
      = (Ok None, w') /\
    rows w' = upsert u' (rows w) /\
    pending w' = [] /\ healthy w' = true.
Proof.
  intros Hp H Hl Hv Hlk Hpw.
  destruct (get_by_email_healthy email w Hp H) as (w1 & G & Hr1 & Hp1 & Hc1).
  set (n := User.failed_login_attempts u + 1).
  set (u' := User.set_is_locked (Z.leb max_login_attempts n)
               (User.set_failed_login_attempts n u)).
  destruct (add_commit_healthy u' (@None User.t) w1 Hp1
              (proj2 (proj2 (proj2 Hc1))))
    as (w2 & A & Hr2 & Hp2 & Hc2).
  exists w2. cbv zeta. fold n u'. split.
  - unfold login_user. rewrite (bind_ok _ _ _ _ _ G), Hl, Hv, Hlk, Hpw.
    simpl negb. cbv iota. fold n.
    replace (if Z.leb max_login_attempts
                      (User.failed_login_attempts
                         (User.set_failed_login_attempts n u))
             then User.set_is_locked true (User.set_failed_login_attempts n u)
             else User.set_failed_login_attempts n u) with u'; [exact A|].
    subst u'. simpl. destruct (Z.leb max_login_attempts n); [reflexivity|].
    unfold User.set_is_locked, User.set_failed_login_attempts. simpl.
    now rewrite Hlk.
  - split; [now rewrite Hr2, Hr1 | split; [exact Hp2 | apply Hc2]].
Qed.

(** X14: A wrong password writes the failure counter and, at the maximum, the
    lock of the account logged into, and nothing else: its other fields and
    every other account read as before. *)
Theorem login_user_wrong_password_frame (w : World) (email password : string)
        (u : User.t) :
  pending w = [] ->
  healthy w = true ->
  lookup_email email (rows w) = Some u ->
  User.email_verified u = true ->
  User.is_locked u = false ->
  verify_password password (User.hashed_password u) = false ->
  exists (u' : User.t) (w' : World),
    login_user verify_password max_login_attempts email password w
      = (Ok None, w') /\
    lookup_id (User.id u) (rows w') = Some u' /\
    u' = User.set_is_locked (User.is_locked u')
           (User.set_failed_login_attempts (User.failed_login_attempts u') u) /\
    User.failed_login_attempts u' = User.failed_login_attempts u + 1 /\
    (forall j, j <> User.id u ->
               lookup_id j (rows w') = lookup_id j (rows w)).
Proof.
  intros Hp H Hl Hv Hlk Hpw.
  destruct (login_user_rejects w email password u Hp H Hl Hv Hlk Hpw)
    as (w' & L & Hr & _).
  cbv zeta in L, Hr.
  eexists _, w'. split; [exact L|]. rewrite Hr. split.
  - apply (lookup_id_upsert
             (User.set_is_locked _ (User.set_failed_login_attempts _ u))).
  - split; [reflexivity|]. split; [reflexivity|].
    intros j Hj. now apply lookup_id_upsert_other.
Qed.

(** X15: Fewer failures than the maximum do not lock: the right password then
    logs in and clears the counter. *)
Theorem login_user_resets_counter (w : World) (email password : string)
        (u : User.t) (wrong : list string) :
  pending w = [] ->
  healthy w = true ->
  lookup_email email (rows w) = Some u ->
  User.email_verified u = true ->
  User.is_locked u = false ->
  Forall (fun p => verify_password p (User.hashed_password u) = false) wrong ->
  User.failed_login_attempts u + Z.of_nat (List.length wrong)
    < max_login_attempts ->
  verify_password password (User.hashed_password u) = true ->
  exists (w1 : World) (u2 : User.t) (w2 : World),
    login_attempts (login_user verify_password max_login_attempts email)
                   wrong w
      = (Ok (repeat None (List.length wrong)), w1) /\
    login_user verify_password max_login_attempts email password w1
      = (Ok (Some u2), w2) /\
    User.failed_login_attempts u2 = 0 /\
    User.is_locked u2 = false /\
    lookup_email email (rows w2) = Some u2.
Proof.
  intros Hp H Hl Hv Hlk Hall Hlt Hpw.
  destruct (login_attempts_wrong verify_password max_login_attempts wrong w
              email u Hp H Hl Hv Hlk Hall)
    as (u1 & w1 & L1 & Hp1 & Hh1 & Hl1 & Hv1 & Hpw1 & Hf1 & Hk1); [lia|].
  assert (Hk : User.is_locked u1 = false).
  { rewrite Hk1. destruct wrong; [reflexivity|]. apply Z.leb_gt. lia. }
  rewrite <- Hpw1 in Hpw.
  destruct (login_user_accepts verify_password max_login_attempts w1 email
              password u1 Hp1 Hh1 Hl1 Hv1 Hk Hpw)
    as (t & w2 & L2 & _ & Hr2 & _).
  cbv zeta in L2, Hr2.
  eexists w1, _, w2. split; [exact L1|]. split; [exact L2|].
  split; [reflexivity|]. split; [exact Hk|].
  rewrite Hr2. apply (lookup_email_upsert u1); auto.
  apply (lookup_email_some _ _ _ Hl1).
Qed.

(** X16: Once the maximum is reached, [is_account_locked] tells. *)
Theorem lockout_is_reported (w : World) (email : string) (u : User.t)
        (wrong : list string) :
  pending w = [] ->
  healthy w = true ->
  lookup_email email (rows w) = Some u ->
  User.email_verified u = true ->
  User.is_locked u = false ->
  Forall (fun p => verify_password p (User.hashed_password u) = false) wrong ->
  wrong <> [] ->
  User.failed_login_attempts u + Z.of_nat (List.length wrong)
    = max_login_attempts ->
  exists (w1 w2 : World),
    login_attempts (login_user verify_password max_login_attempts email)
                   wrong w
      = (Ok (repeat None (List.length wrong)), w1) /\
    is_account_locked email w1 = (Ok true, w2).
Proof.
  intros Hp H Hl Hv Hlk Hall Hne Hmax.
  destruct (login_attempts_wrong verify_password max_login_attempts wrong w
              email u Hp H Hl Hv Hlk Hall)
    as (u1 & w1 & L1 & Hp1 & Hh1 & Hl1 & _ & _ & Hf1 & Hk1); [lia|].
  assert (Hk : User.is_locked u1 = true).
  { rewrite Hk1. destruct wrong; [congruence|]. apply Z.leb_le. lia. }
  destruct (get_by_email_healthy email w1 Hp1 Hh1) as (w2 & G & _).
  exists w1, w2. split; [exact L1|].
  unfold is_account_locked. rewrite (bind_ok _ _ _ _ _ G), Hl1.
  unfold ret. now rewrite Hk.
Qed.

(** X17: A locked, verified account logs in again after [unlock_user_account]. *)
Theorem unlock_then_login (w : World) (password : string) (u : User.t) :
  pending w = [] ->
  healthy w = true ->
  lookup_id (User.id u) (rows w) = Some u ->
  lookup_email (User.email u) (rows w) = Some u ->
  User.email_verified u = true ->
  User.is_locked u = true ->
  verify_password password (User.hashed_password u) = true ->
  exists (w1 : World) (u2 : User.t) (w2 : World),
    unlock_user_account (User.id u) w = (Ok true, w1) /\
    login_user verify_password max_login_attempts (User.email u) password w1
      = (Ok (Some u2), w2) /\
    User.id u2 = User.id u /\
    User.is_locked u2 = false /\
    User.failed_login_attempts u2 = 0.
Proof.
  intros Hp H Hli Hle Hv Hk Hpw.
  destruct (get_by_id_healthy (User.id u) w Hp H)
    as (w0 & G & Hr0 & Hp0 & Hc0).
  set (u1 := User.set_failed_login_attempts 0 (User.set_is_locked false u)).
  destruct (add_commit_healthy u1 true w0 Hp0 (proj2 (proj2 (proj2 Hc0))))
    as (w1 & A & Hr1 & Hp1 & Hc1).
  assert (Hl1 : lookup_email (User.email u) (rows w1) = Some u1).
  { rewrite Hr1, Hr0. now apply (lookup_email_upsert u u1). }
  destruct (login_user_accepts verify_password max_login_attempts w1
              (User.email u) password u1 Hp1 (proj2 (proj2 (proj2 Hc1)))
              Hl1 Hv eq_refl Hpw)
    as (t & w2 & L2 & _).
  cbv zeta in L2.
  eexists w1, _, w2. split.
  - unfold unlock_user_account. rewrite (bind_ok _ _ _ _ _ G), Hli, Hk.
    exact A.
  - split; [exact L2|]. repeat split.
Qed.

End Composing.

(** ** Updating *)

Lemma execute_statement_select (q : Query) :
  _execute_statement (Selecting q) = _execute_query q.
Proof. reflexivity. Qed.

Lemma filter_none_of_find (p : User.t -> bool) (l : list User.t) :
  List.find p l = None -> List.filter p l = [].
Proof.
  induction l as [|x l IH]; simpl; [reflexivity|].
  destruct (p x); [discriminate | exact IH].
Qed.

(** An UPDATE on a working gateway: every matching row is rewritten at the
    commit. *)
Lemma execute_update_healthy (p : User.t -> bool) (f : User.t -> User.t) w :
  pending w = [] -> healthy w = true ->
  exists r w',
    _execute_statement (Updating p f) w = (Ok (Some r), w') /\
    rows w' = fold_left flush
                (List.map (fun x => Added (f x)) (List.filter p (rows w)))
                (rows w) /\
    pending w' = [] /\ calm w w'.
Proof.
  intros Hp H.
  destruct (round_trip_healthy w H) as (w1 & R & Hr1 & Hp1 & _ & _ & Hc1).
  set (hit := List.filter p (rows w1)).
  set (w2 := {| rows := rows w1;
                pending := pending w1 ++ List.map (fun x => Added (f x)) hit;
                trips := trips w1; clock := clock w1;
                next_uuid := next_uuid w1; rollbacks := rollbacks w1;
                outbox := outbox w1; log := log w1 |}).
  assert (Hc12 : calm w1 w2).
  { unfold calm. simpl. repeat split; try lia. apply Hc1. }
  destruct (session_commit_healthy w2 (proj2 (proj2 (proj2 Hc12))))
    as (w3 & C & Hr3 & Hp3 & _ & _ & Hc3).
  exists (Scalar (Z.of_nat (List.length hit))), w3. split.
  - unfold _execute_statement. apply try_except_ok.
    assert (S : session_execute_statement (Updating p f) w
                = (Ok (Scalar (Z.of_nat (List.length hit))), w2)).
    { unfold session_execute_statement.
      rewrite (bind_ok _ _ _ _ _ R). reflexivity. }
    rewrite (bind_ok _ _ _ _ _ S), (bind_ok _ _ _ _ _ C). reflexivity.
  - split.
    + rewrite Hr3. simpl. rewrite Hp1, Hp. simpl. subst hit.
      now rewrite Hr1.
    + split; [exact Hp3|].
      eapply calm_trans; [exact Hc1|].
      eapply calm_trans; [exact Hc12 | exact Hc3].
Qed.

Section Updating.

Variable UserUpdate_model_dump : gmap string string -> option UserUpdate.t.
Variable hash_password : string -> string.

(** X18: [update] is the one operation that never raises: whatever happens inside,
    it returns. *)
Theorem update_never_raises (w : World) (user_id : UUID)
        (update_data : gmap string string) :
  exists (r : option User.t) (w' : World),
    update UserUpdate_model_dump hash_password user_id update_data w
      = (Ok r, w').
Proof.
  unfold update, try_except.
  match goal with
  | |- context [match ?m w with _ => _ end] =>
      destruct (m w) as [[a|e] w1]
  end.
  - now exists a, w1.
  - eexists _, _. reflexivity.
Qed.

(** A patch the schema rejects: no account, no round trip, the table as
    before. *)
Lemma update_invalid_patch (w : World) (user_id : UUID)
        (update_data : gmap string string) :
  UserUpdate_model_dump update_data = None ->
  exists w',
    update UserUpdate_model_dump hash_password user_id update_data w
      = (Ok None, w') /\
    rows w' = rows w /\ pending w' = pending w /\ trips w' = trips w.
Proof.
  intros Hv. unfold update. rewrite Hv.
  eexists. split; [reflexivity|]. repeat split.
Qed.

(** X19: A patch whose email belongs to another account is refused: no account
    returned, the table as before. *)
Theorem update_email_taken (w : World) (user_id : UUID)
        (update_data : gmap string string) (d : UserUpdate.t)
        (e : string) (x : User.t) :
  pending w = [] ->
  healthy w = true ->
  UserUpdate_model_dump update_data = Some d ->
  UserUpdate.email d = Some e ->
  lookup_email e (rows w) = Some x ->
  User.id x <> user_id ->
  exists w',
    update UserUpdate_model_dump hash_password user_id update_data w
      = (Ok None, w') /\
    rows w' = rows w.
Proof.
  intros Hp H Hv He Hl Hx.
  destruct (get_by_email_healthy e w Hp H) as (w1 & G & Hr1 & _).
  rewrite Hl in G.
  assert (Ho : owned_by_other (Some x) user_id = true).
  { simpl. apply negb_true_iff. now apply N.eqb_neq. }
  unfold update. rewrite Hv, He.
  eexists. split.
  - apply try_except_ok. rewrite (bind_ok _ _ _ _ _ G), Ho. reflexivity.
  - exact Hr1.
Qed.

(** X20: A patch whose nickname belongs to another account is refused: no
    account returned, the table as before. *)
Theorem update_nickname_taken (w : World) (user_id : UUID)
        (update_data : gmap string string) (d : UserUpdate.t)
        (n : string) (x : User.t) :
  pending w = [] ->
  healthy w = true ->
  UserUpdate_model_dump update_data = Some d ->
  match UserUpdate.email d with
  | Some e => owned_by_other (lookup_email e (rows w)) user_id
  | None => false
  end = false ->
  UserUpdate.nickname d = Some n ->
  lookup_nickname n (rows w) = Some x ->
  User.id x <> user_id ->
  exists w',
    update UserUpdate_model_dump hash_password user_id update_data w
      = (Ok None, w') /\
    rows w' = rows w.
Proof.
  intros Hp H Hv He Hn Hl Hx.
  assert (E1 : exists w1,
             match UserUpdate.email d with
             | Some e => get_by_email e
             | None => ret None
             end w
             = (Ok match UserUpdate.email d with
                   | Some e => lookup_email e (rows w)
                   | None => None
                   end, w1) /\
             rows w1 = rows w /\ pending w1 = [] /\ healthy w1 = true).
  { destruct (UserUpdate.email d) as [e|].
    - destruct (get_by_email_healthy e w Hp H) as (w1 & G & Hr1 & Hp1 & Hc1).
      exists w1. repeat split; auto. apply Hc1.
    - exists w. repeat split; auto. }
  destruct E1 as (w1 & G1 & Hr1 & Hp1 & Hh1).
  destruct (fetch_user_healthy (fun u => String.eqb (User.nickname u) n)
              w1 Hp1 Hh1) as (w2 & G2 & Hr2 & _).
  rewrite Hr1 in G2. unfold lookup_nickname in Hl. rewrite Hl in G2.
  assert (Ho : owned_by_other (Some x) user_id = true).
  { simpl. apply negb_true_iff. now apply N.eqb_neq. }
  unfold update. rewrite Hv, Hn.
  eexists. split.
  - apply try_except_ok. rewrite (bind_ok _ _ _ _ _ G1).
    assert (He' : owned_by_other
                    match UserUpdate.email d with
                    | Some e => lookup_email e (rows w)
                    | None => None
                    end user_id = false)
      by (destruct (UserUpdate.email d); [exact He | reflexivity]).
    rewrite He'. unfold get_by_nickname.
    rewrite (bind_ok _ _ _ _ _ G2), Ho. reflexivity.
  - simpl. congruence.
Qed.

(** What a patch without conflicts does, by whether the id is stored. *)
Lemma update_runs (w : World) (user_id : UUID)
      (update_data : gmap string string) (d : UserUpdate.t) :
  pending w = [] ->
  healthy w = true ->
  UserUpdate_model_dump update_data = Some d ->
  match UserUpdate.email d with
  | Some e => owned_by_other (lookup_email e (rows w)) user_id
  | None => false
  end = false ->
  match UserUpdate.nickname d with
  | Some n => owned_by_other (lookup_nickname n (rows w)) user_id
  | None => false
  end = false ->
  exists w',
    update UserUpdate_model_dump hash_password user_id update_data w
      = (Ok (lookup_id user_id (rows w')), w') /\
    rows w' = fold_left flush
                (List.map
                   (fun x =>
                      Added (patch_values d
                               (option_map hash_password (UserUpdate.password d))
                               x))
                   (List.filter (fun u => N.eqb (User.id u) user_id) (rows w)))
                (rows w).
Proof.
  intros Hp H Hv He Hn.
  assert (E1 : exists w1,
             match UserUpdate.email d with
             | Some e => get_by_email e
             | None => ret None
             end w
             = (Ok match UserUpdate.email d with
                   | Some e => lookup_email e (rows w)
                   | None => None
                   end, w1) /\
             rows w1 = rows w /\ pending w1 = [] /\ healthy w1 = true).
  { destruct (UserUpdate.email d) as [e|].
    - destruct (get_by_email_healthy e w Hp H) as (w1 & G & Hr1 & Hp1 & Hc1).
      exists w1. repeat split; auto. apply Hc1.
    - exists w. repeat split; auto. }
  destruct E1 as (w1 & G1 & Hr1 & Hp1 & Hh1).
  assert (E2 : exists w2,
             match UserUpdate.nickname d with
             | Some n => get_by_nickname n
             | None => ret None
             end w1
             = (Ok match UserUpdate.nickname d with
                   | Some n => lookup_nickname n (rows w)
                   | None => None
                   end, w2) /\
             rows w2 = rows w /\ pending w2 = [] /\ healthy w2 = true).
  { destruct (UserUpdate.nickname d) as [n|].
    - destruct (fetch_user_healthy (fun u => String.eqb (User.nickname u) n)
                  w1 Hp1 Hh1) as (w2 & G & Hr2 & Hp2 & Hc2).
      exists w2. unfold get_by_nickname, lookup_nickname.
      rewrite G, Hr1. repeat split; auto; [congruence | apply Hc2].
    - exists w1. repeat split; auto. }
  destruct E2 as (w2 & G2 & Hr2 & Hp2 & Hh2).
  destruct (execute_update_healthy
              (fun u => N.eqb (User.id u) user_id)
              (patch_values d (option_map hash_password (UserUpdate.password d)))
              w2 Hp2 Hh2)
    as (r & w3 & U & Hr3 & Hp3 & Hc3).
  destruct (get_by_id_healthy user_id w3 Hp3 (proj2 (proj2 (proj2 Hc3))))
    as (w4 & G4 & Hr4 & _).
  assert (He' : owned_by_other
                  match UserUpdate.email d with
                  | Some e => lookup_email e (rows w)
                  | None => None
                  end user_id = false)
    by (destruct (UserUpdate.email d); [exact He | reflexivity]).
  assert (Hn' : owned_by_other
                  match UserUpdate.nickname d with
                  | Some n => lookup_nickname n (rows w)
                  | None => None
                  end user_id = false)
    by (destruct (UserUpdate.nickname d); [exact Hn | reflexivity]).
  assert (Hfinal : exists w5,
             (updated_user <- get_by_id user_id ;;
              match updated_user with
              | Some u => logger INFO ;;; ret (Some u)
              | None => logger ERROR ;;; ret None
              end) w3 = (Ok (lookup_id user_id (rows w3)), w5) /\
             rows w5 = rows w3).
  { rewrite (bind_ok _ _ _ _ _ G4).
    destruct (lookup_id user_id (rows w3));
      eexists; (split; [reflexivity | exact Hr4]). }
  destruct Hfinal as (w5 & F & Hr5).
  exists w5. split.
  - unfold update. apply try_except_ok. rewrite Hv.
    rewrite (bind_ok _ _ _ _ _ G1), He'.
    rewrite (bind_ok _ _ _ _ _ G2), Hn'.
    cbv zeta. rewrite (bind_ok _ _ _ _ _ U). rewrite Hr5. exact F.
  - rewrite Hr5, Hr3, Hr2. reflexivity.
Qed.

(** X21: A patch for an id that is not stored: no account, the table as
    before. *)
Theorem update_missing_id (w : World) (user_id : UUID)
        (update_data : gmap string string) (d : UserUpdate.t) :
  pending w = [] ->
  healthy w = true ->
  UserUpdate_model_dump update_data = Some d ->
  match UserUpdate.email d with
  | Some e => owned_by_other (lookup_email e (rows w)) user_id
  | None => false
  end = false ->
  match UserUpdate.nickname d with
  | Some n => owned_by_other (lookup_nickname n (rows w)) user_id
  | None => false
  end = false ->
  lookup_id user_id (rows w) = None ->
  exists w',
    update UserUpdate_model_dump hash_password user_id update_data w
      = (Ok None, w') /\
    rows w' = rows w.
Proof.
  intros Hp H Hv He Hn Hl.
  destruct (update_runs w user_id update_data d Hp H Hv He Hn)
    as (w' & U & Hr).
  unfold lookup_id in Hl. rewrite (filter_none_of_find _ _ Hl) in Hr.
  simpl in Hr. exists w'. rewrite U, Hr. split; [|reflexivity].
  unfold lookup_id. now rewrite Hl.
Qed.

(** X22: A patch without conflicts for the one account that carries the id: the
    account comes back with the fields of the patch, the hash in the place
    of a new password, and everything the patch does not name as it was;
    the other accounts read as before. *)
Theorem update_applies_patch (w : World) (user_id : UUID)
        (update_data : gmap string string) (d : UserUpdate.t) (u : User.t) :
  pending w = [] ->
  healthy w = true ->
  UserUpdate_model_dump update_data = Some d ->
  match UserUpdate.email d with
  | Some e => owned_by_other (lookup_email e (rows w)) user_id
  | None => false
  end = false ->
  match UserUpdate.nickname d with
  | Some n => owned_by_other (lookup_nickname n (rows w)) user_id
  | None => false
  end = false ->
  List.filter (fun x => N.eqb (User.id x) user_id) (rows w) = [u] ->
  exists (u' : User.t) (w' : World),
    update UserUpdate_model_dump hash_password user_id update_data w
      = (Ok (Some u'), w') /\
    lookup_id user_id (rows w') = Some u' /\
    User.email u' = default (User.email u) (UserUpdate.email d) /\
    User.nickname u' = default (User.nickname u) (UserUpdate.nickname d) /\
    User.hashed_password u'
      = default (User.hashed_password u)
                (option_map hash_password (UserUpdate.password d)) /\
    User.id u' = User.id u /\
    User.is_locked u' = User.is_locked u /\
    User.failed_login_attempts u' = User.failed_login_attempts u /\
    User.email_verified u' = User.email_verified u /\
    User.verification_token u' = User.verification_token u /\
    (forall j, j <> user_id -> lookup_id j (rows w') = lookup_id j (rows w)).
Proof.
  intros Hp H Hv He Hn Hone.
  destruct (update_runs w user_id update_data d Hp H Hv He Hn)
    as (w' & U & Hr).
  rewrite Hone in Hr. simpl in Hr.
  set (u' := patch_values d (option_map hash_password (UserUpdate.password d))
                          u) in *.
  assert (Hid : User.id u' = user_id).
  { assert (Hin : In u (List.filter (fun x => N.eqb (User.id x) user_id)
                                    (rows w))) by (rewrite Hone; now left).
    apply filter_In in Hin as [_ Hin]. now apply N.eqb_eq in Hin. }
  assert (Hl : lookup_id user_id (rows w') = Some u').
  { rewrite Hr, <- Hid. apply lookup_id_upsert. }
  exists u', w'. split; [now rewrite U, Hl|]. split; [exact Hl|].
  do 8 (split; [reflexivity|]).
  intros j Hj. rewrite Hr. apply lookup_id_upsert_other. congruence.
Qed.

End Updating.

(** ** From sign-up to the first login *)

Section Onboarding.

Variable UserCreate_model_dump : gmap string string -> option UserCreate.t.
Variable hash_password : string -> string.
Variable verify_password : string -> string -> bool.
Variable max_login_attempts : Z.

(** X23: the account [create] returns is unverified and carries no
    verification token, so straight after [create] no token verifies it and
    no password logs it in; both calls answer their sentinel and leave the
    table alone. *)
Theorem create_leaves_account_unverifiable (w : World)
        (user_data : gmap string string) (email_service : EmailService)
        (validated : UserCreate.t) :
  pending w = [] ->
  healthy w = true ->
  fresh_uuid w = true ->
  UserCreate_model_dump user_data = Some validated ->
  lookup_email (UserCreate.email validated) (rows w) = None ->
  lookup_nickname (UserCreate.nickname validated) (rows w) = None ->
  exists (u : User.t) (w' : World),
    create UserCreate_model_dump hash_password user_data email_service w
      = (Ok (Some u), w') /\
    (forall token : string,
        exists w'' : World,
          verify_email_with_token (User.id u) token w' = (Ok false, w'') /\
          rows w'' = rows w') /\
    (forall password : string,
        exists w'' : World,
          login_user verify_password max_login_attempts
                     (UserCreate.email validated) password w'
            = (Ok None, w'') /\
          rows w'' = rows w').
Proof.
  intros Hp H Hfresh Hv He Hn.
  destruct (create_appends UserCreate_model_dump hash_password w user_data
              email_service validated Hp H Hfresh Hv He Hn)
    as (t & w' & C & Hrows & Hp' & _).
  cbv zeta in C, Hrows.
  match type of C with
  | _ = (Ok (Some ?x), _) => set (u := x) in *
  end.
  exists u, w'. split; [exact C|]. split.
  - intros token.
    destruct (verify_email_refused w' (User.id u) token Hp')
      as (w'' & V & Hr & _).
    + intros u0 Hu0. rewrite Hrows in Hu0.
      rewrite (lookup_id_appended w u Hfresh eq_refl) in Hu0.
      injection Hu0 as <-. right. discriminate.
    + now exists w''.
  - intros password.
    destruct (login_user_stops_early verify_password max_login_attempts w'
                (UserCreate.email validated) password Hp')
      as (w'' & L & Hr & _).
    + intros u0 Hu0. rewrite Hrows in Hu0.
      rewrite (lookup_email_appended _ _ u He eq_refl) in Hu0.
      injection Hu0 as <-. now left.
    + now exists w''.
Qed.

(** X24: an unverified account cannot log in, even with the right password;
    once [verify_email_with_token] has accepted its token, the same login
    succeeds. *)
Theorem verify_then_login (w : World) (token password : string) (u : User.t) :
  pending w = [] ->
  healthy w = true ->
  lookup_id (User.id u) (rows w) = Some u ->
  lookup_email (User.email u) (rows w) = Some u ->
  User.email_verified u = false ->
  User.is_locked u = false ->
  User.verification_token u = Some token ->
  verify_password password (User.hashed_password u) = true ->
  exists (w0 w1 : World) (u2 : User.t) (w2 : World),
    login_user verify_password max_login_attempts (User.email u) password w
      = (Ok None, w0) /\
    rows w0 = rows w /\
    verify_email_with_token (User.id u) token w0 = (Ok true, w1) /\
    login_user verify_password max_login_attempts (User.email u) password w1
      = (Ok (Some u2), w2) /\
    User.id u2 = User.id u /\
    User.email_verified u2 = true.
Proof.
  intros Hp H Hli Hle Hv Hlk Ht Hpw.
  destruct (get_by_email_healthy (User.email u) w Hp H)
    as (w0 & G0 & Hr0 & Hp0 & Hc0).
  rewrite Hle in G0.
  destruct (get_by_id_healthy (User.id u) w0 Hp0 (proj2 (proj2 (proj2 Hc0))))
    as (w1 & G1 & Hr1 & Hp1 & Hc1).
  rewrite Hr0, Hli in G1.
  set (v := User.set_verification_token None (User.set_email_verified true u)).
  set (u1 := User.set_role (if UserRole_eqb (User.role v) ANONYMOUS
                            then AUTHENTICATED else User.role v) v).
  destruct (add_commit_healthy u1 true w1 Hp1 (proj2 (proj2 (proj2 Hc1))))
    as (w2 & A & Hr2 & Hp2 & Hc2).
  assert (Hl2 : lookup_email (User.email u) (rows w2) = Some u1).
  { rewrite Hr2, Hr1, Hr0. now apply (lookup_email_upsert u u1). }
  destruct (login_user_accepts verify_password max_login_attempts w2
              (User.email u) password u1 Hp2 (proj2 (proj2 (proj2 Hc2)))
              Hl2 eq_refl Hlk Hpw)
    as (t & w3 & L3 & _).
  cbv zeta in L3.
  eexists w0, w2, _, w3. split.
  - unfold login_user. rewrite (bind_ok _ _ _ _ _ G0), Hv. reflexivity.
  - split; [exact Hr0|]. split.
    + unfold verify_email_with_token.
      rewrite (bind_ok _ _ _ _ _ G1), Hv.
      rewrite (proj2 (token_eqb_eq _ _) Ht). exact A.
    + split; [exact L3|]. split; reflexivity.
Qed.

End Onboarding.

(** ** A write that is lost *)

(** On a working gateway a query logs nothing and rolls nothing back. *)
Lemma fetch_user_quiet (p : User.t -> bool) (w : World) :
  pending w = [] -> healthy w = true ->
  exists w', _fetch_user p w = (Ok (List.find p (rows w)), w') /\
             rows w' = rows w /\ log w' = log w /\
             rollbacks w' = rollbacks w.
Proof.
  intros Hp H.
  destruct (fetch_user_healthy p w Hp H) as (w' & F & Hr & _).
  exists w'. split; [exact F|]. split; [exact Hr|].
  revert F.
  unfold _fetch_user, _execute_query, try_except, bind, session_execute,
    session_commit, bind.
  destruct (round_trip w) as [r1 w1] eqn:R1.
  destruct (round_trip_cases _ _ _ R1)
    as (_ & _ & _ & _ & Hb1 & Hl1 & _ & [-> | [_ Hh1]]); [|congruence].
  unfold ret at 1.
  destruct (round_trip w1) as [r2 w2] eqn:R2.
  destruct (round_trip_cases _ _ _ R2)
    as (_ & _ & _ & _ & Hb2 & Hl2 & Hm2 & [-> | [_ Hh2]]).
  - intros [= _ <-]. simpl. split; congruence.
  - assert (healthy w1 = true).
    { destruct (healthy w1) eqn:E; [reflexivity|].
      destruct (round_trip_cases _ _ _ R1) as (_ & _ & _ & _ & _ & _ & Hm & _).
      rewrite (Hm E) in H. discriminate. }
    congruence.
Qed.

Section LostWrite.

Variable UserUpdate_model_dump : gmap string string -> option UserUpdate.t.
Variable hash_password : string -> string.

(** X25: when the round trip of the UPDATE fails and the gateway works again
    afterwards, [update] still returns the account, and logs success: the
    failure absorbed by [_execute_query] is dropped, the re-read finds the
    account as it was, and nothing of the patch is stored. *)
Theorem update_lost_write_reported_as_success (w : World) (user_id : UUID)
        (update_data : gmap string string) (d : UserUpdate.t) (u : User.t)
        (t : Trip) (ts : list Trip) :
  pending w = [] ->
  trips w = t :: ts ->
  fails t = true ->
  forallb (fun t' => negb (fails t')) ts = true ->
  UserUpdate_model_dump update_data = Some d ->
  UserUpdate.email d = None ->
  UserUpdate.nickname d = None ->
  lookup_id user_id (rows w) = Some u ->
  exists w',
    update UserUpdate_model_dump hash_password user_id update_data w
      = (Ok (Some u), w') /\
    rows w' = rows w /\
    rollbacks w' = S (rollbacks w) /\
    log w' = INFO :: ERROR :: log w.
Proof.
  intros Hp Ht Hf Hts Hv He Hn Hl.
  set (p := fun x : User.t => N.eqb (User.id x) user_id).
  set (f := patch_values d (option_map hash_password (UserUpdate.password d))).
  set (w2 := {| rows := rows w; pending := []; trips := ts;
                clock := clock w + Z.of_N (took t);
                next_uuid := next_uuid w; rollbacks := S (rollbacks w);
                outbox := outbox w; log := ERROR :: log w |}).
  assert (E : _execute_statement (Updating p f) w = (Ok None, w2)).
  { unfold _execute_statement, try_except, bind, session_execute_statement,
      bind, round_trip.
    rewrite Ht, Hf. reflexivity. }
  destruct (fetch_user_quiet p w2 eq_refl Hts)
    as (w3 & G & Hr3 & Hl3 & Hb3).
  change (List.find p (rows w2)) with (lookup_id user_id (rows w)) in G.
  rewrite Hl in G.
  eexists. split.
  - unfold update. apply try_except_ok. rewrite Hv, He, Hn.
    assert (R : @ret (option User.t) None w = (Ok None, w)) by reflexivity.
    rewrite (bind_ok (ret None) _ w None w R).
    change (owned_by_other None user_id) with false. cbv iota.
    rewrite (bind_ok (ret None) _ w None w R).
    change (owned_by_other None user_id) with false. cbv iota zeta.
    fold p. fold f. rewrite (bind_ok _ _ _ _ _ E).
    unfold get_by_id. fold p. rewrite (bind_ok _ _ _ _ _ G).
    reflexivity.
  - simpl. rewrite Hr3, Hl3, Hb3. auto.
Qed.

End LostWrite.

(** * The other operations on concrete worlds *)

Lemma execute_query_absorbs_witness :
  exists (r : option Result) (w' : World),
    _execute_query (Select (fun _ => true) None None) Sample.down = (Ok r, w') /\
    rows w' = Sample.table /\ pending w' = [] /\
    ((r = Some (run_query (Select (fun _ => true) None None) Sample.table) /\
      rollbacks w' = 0%nat /\ log w' = [])
     \/
     (r = None /\ healthy Sample.down = false /\
      rollbacks w' = 1%nat /\ log w' = [ERROR])).
Proof.
  apply (execute_query_absorbs (Select (fun _ => true) None None) Sample.down).
  reflexivity.
Defined.

Lemma delete_missing_id_witness :
  exists w', delete 9%N Sample.down = (Ok false, w') /\
             rows w' = Sample.table.
Proof.
  apply (delete_missing_id Sample.down 9%N); reflexivity.
Defined.

Lemma delete_existing_id_witness :
  exists w',
    delete 2%N Sample.busy = (Ok true, w') /\
    lookup_id 2%N (rows w') = None /\
    (forall j, j <> 2%N ->
               lookup_id j (rows w') = lookup_id j Sample.table) /\
    exists w'', get_by_id 2%N w' = (Ok None, w'').
Proof.
  apply (delete_existing_id Sample.busy 2%N Fixture.bob); reflexivity.
Defined.

Lemma unlock_user_account_locked_witness :
  exists (u' : User.t) (w' : World),
    unlock_user_account 3%N Sample.busy = (Ok true, w') /\
    lookup_id 3%N (rows w') = Some u' /\
    u' = User.set_failed_login_attempts 0
           (User.set_is_locked false Fixture.carol) /\
    User.is_locked u' = false /\
    User.failed_login_attempts u' = 0 /\
    (forall j, j <> 3%N ->
               lookup_id j (rows w') = lookup_id j Sample.table).
Proof.
  apply (unlock_user_account_locked Sample.busy 3%N Fixture.carol);
    reflexivity.
Defined.

Lemma unlock_user_account_refused_witness :
  exists w', unlock_user_account 1%N Sample.down = (Ok false, w') /\
             rows w' = Sample.table.
Proof.
  apply (unlock_user_account_refused Sample.down 1%N); [reflexivity|].
  intros u [= <-]. reflexivity.
Defined.

Lemma is_account_locked_reads_witness :
  exists (b : bool) (w' : World),
    is_account_locked "carol@x.com" Sample.busy = (Ok b, w') /\
    rows w' = Sample.table /\
    b = true.
Proof.
  destruct (is_account_locked_reads Sample.busy "carol@x.com" eq_refl)
    as (b & w' & R & Hr & _ & Hb).
  exists b, w'. split; [exact R|]. split; [exact Hr|]. exact (Hb eq_refl).
Defined.

Lemma list_users_page_witness :
  exists (l : list User.t) (w' : World),
    list_users 1 1 Sample.busy = (Ok l, w') /\
    rows w' = Sample.table /\
    l = [Fixture.bob].
Proof.
  destruct (list_users_page Sample.busy 1 1 eq_refl)
    as (l & w' & L & Hr & _ & _ & Hl).
  exists l, w'. split; [exact L|]. split; [exact Hr|]. exact (Hl eq_refl).
Defined.

Lemma search_users_bounded_witness :
  exists (l : list UserResponse.t) (w' : World),
    search_users Fixture.lower Fixture.str_lower None (Some "CAROL@X.COM")
                 None None None None None None 0 2 Sample.busy
      = (Ok l, w') /\
    rows w' = Sample.table /\
    (List.length l <= 2)%nat.
Proof.
  destruct (search_users_bounded Fixture.lower Fixture.str_lower
              Sample.busy None
              (Some "CAROL@X.COM") None None None None None None 0 2 eq_refl)
    as (l & w' & S & Hr & Hlen & _).
  now exists l, w'.
Defined.

Lemma search_users_status_label_witness :
  exists (l : list UserResponse.t) (w' : World),
    search_users Fixture.lower Fixture.str_lower None None None None None
                 (Some ("loc" ++ Fixture.kelvin_sign ++ "ed"))
                 None None 0 10 Sample.busy
      = (Ok l, w') /\
    forall r, In r l -> UserResponse.account_status r = "Locked".
Proof.
  apply (search_users_status_label Fixture.lower Fixture.str_lower
           Sample.busy None None None None None
           ("loc" ++ Fixture.kelvin_sign ++ "ed") None None 0 10);
    [reflexivity | discriminate].
Defined.

Lemma create_duplicate_nickname_witness :
  exists w',
    create Fixture.model_dump Fixture.hash_password
           (Fixture.signup "dave@x.com" "bob" "Dave12345!")
           outbox_email_service Sample.busy
      = (Ok None, w') /\
    rows w' = Sample.table.
Proof.
  apply (create_duplicate_nickname Fixture.model_dump Fixture.hash_password
           Sample.busy (Fixture.signup "dave@x.com" "bob" "Dave12345!")
           outbox_email_service
           (UserCreate.mk "dave@x.com" "bob" "Dave12345!" None None ANONYMOUS)
           Fixture.bob); reflexivity.
Defined.

Lemma create_persists_witness :
  exists (u : User.t) (w' : World),
    create Fixture.model_dump Fixture.hash_password
           (Fixture.signup "dave@x.com" "dave" "Dave12345!")
           outbox_email_service Sample.busy
      = (Ok (Some u), w') /\
    rows w' = (Sample.table ++ [u])%list /\
    User.hashed_password u = Fixture.hash_password "Dave12345!" /\
    lookup_email "dave@x.com" (rows w') = Some u /\
    lookup_id (User.id u) (rows w') = Some u.
Proof.
  destruct (create_persists Fixture.model_dump Fixture.hash_password
              Sample.busy (Fixture.signup "dave@x.com" "dave" "Dave12345!")
              outbox_email_service
              (UserCreate.mk "dave@x.com" "dave" "Dave12345!" None None
                             ANONYMOUS)
              eq_refl eq_refl eq_refl eq_refl eq_refl eq_refl)
    as (u & w' & C & Hr & _ & _ & Hh & _ & _ & _ & Hle & Hli & _).
  exists u, w'. auto.
Defined.

Lemma count_after_create_witness :
  exists (u : User.t) (w' w'' : World),
    create Fixture.model_dump Fixture.hash_password
           (Fixture.signup "dave@x.com" "dave" "Dave12345!")
           outbox_email_service Sample.busy
      = (Ok (Some u), w') /\
    count w' = (Ok 4, w'').
Proof.
  apply (count_after_create Fixture.model_dump Fixture.hash_password
           Sample.busy (Fixture.signup "dave@x.com" "dave" "Dave12345!")
           outbox_email_service
           (UserCreate.mk "dave@x.com" "dave" "Dave12345!" None None
                          ANONYMOUS)); reflexivity.
Defined.

Lemma count_after_delete_witness :
  exists (w' w'' : World),
    delete 2%N Sample.busy = (Ok true, w') /\
    count w' = (Ok 2, w'').
Proof.
  apply (count_after_delete Sample.busy 2%N Fixture.bob); reflexivity.
Defined.

Lemma login_user_wrong_password_frame_witness :
  exists (u' : User.t) (w' : World),
    login_user Fixture.verify_password 3 "a@x.com" "guess" Sample.busy
      = (Ok None, w') /\
    lookup_id 1%N (rows w') = Some u' /\
    User.failed_login_attempts u' = 1 /\
    (forall j, j <> 1%N ->
               lookup_id j (rows w') = lookup_id j Sample.table).
Proof.
  destruct (login_user_wrong_password_frame Fixture.verify_password 3
              Sample.busy "a@x.com" "guess" Fixture.alice
              eq_refl eq_refl eq_refl eq_refl eq_refl eq_refl)
    as (u' & w' & L & Hl & _ & Hf & Hother).
  exists u', w'. auto.
Defined.

Lemma login_user_resets_counter_witness :
  exists (w1 : World) (u2 : User.t) (w2 : World),
    login_attempts (login_user Fixture.verify_password 3 "a@x.com")
                   ["guess1"; "guess2"] Sample.quiet
      = (Ok [None; None], w1) /\
    login_user Fixture.verify_password 3 "a@x.com" "Secret123!" w1
      = (Ok (Some u2), w2) /\
    User.failed_login_attempts u2 = 0 /\
    User.is_locked u2 = false /\
    lookup_email "a@x.com" (rows w2) = Some u2.
Proof.
  apply (login_user_resets_counter Fixture.verify_password 3 Sample.quiet
           "a@x.com" "Secret123!" Fixture.alice ["guess1"; "guess2"]);
    try reflexivity.
  repeat constructor.
Defined.

Lemma lockout_is_reported_witness :
  exists (w1 w2 : World),
    login_attempts (login_user Fixture.verify_password 3 "a@x.com")
                   ["guess1"; "guess2"; "guess3"] Sample.quiet
      = (Ok [None; None; None], w1) /\
    is_account_locked "a@x.com" w1 = (Ok true, w2).
Proof.
  apply (lockout_is_reported Fixture.verify_password 3 Sample.quiet
           "a@x.com" Fixture.alice ["guess1"; "guess2"; "guess3"]);
    try reflexivity.
  - repeat constructor.
  - discriminate.
Defined.

Lemma unlock_then_login_witness :
  exists (w1 : World) (u2 : User.t) (w2 : World),
    unlock_user_account 3%N Sample.quiet = (Ok true, w1) /\
    login_user Fixture.verify_password 3 "carol@x.com" "Carol999!" w1
      = (Ok (Some u2), w2) /\
    User.id u2 = 3%N /\
    User.is_locked u2 = false /\
    User.failed_login_attempts u2 = 0.
Proof.
  apply (unlock_then_login Fixture.verify_password 3 Sample.quiet
           "Carol999!" Fixture.carol); reflexivity.
Defined.

Lemma update_email_taken_witness :
  exists w',
    update Sample.patch_dump Fixture.hash_password 1%N
           (<["email" := "bob@x.com"]> ∅) Sample.busy
      = (Ok None, w') /\
    rows w' = Sample.table.
Proof.
  apply (update_email_taken Sample.patch_dump Fixture.hash_password
           Sample.busy 1%N (<["email" := "bob@x.com"]> ∅)
           (UserUpdate.mk (Some "bob@x.com") None None None None None)
           "bob@x.com" Fixture.bob); try reflexivity.
  discriminate.
Defined.

Lemma update_nickname_taken_witness :
  exists w',
    update Sample.patch_dump Fixture.hash_password 1%N
           (<["nickname" := "bob"]> ∅) Sample.busy
      = (Ok None, w') /\
    rows w' = Sample.table.
Proof.
  apply (update_nickname_taken Sample.patch_dump Fixture.hash_password
           Sample.busy 1%N (<["nickname" := "bob"]> ∅)
           (UserUpdate.mk None (Some "bob") None None None None)
           "bob" Fixture.bob); try reflexivity.
  discriminate.
Defined.

Lemma update_missing_id_witness :
  exists w',
    update Sample.patch_dump Fixture.hash_password 9%N
           (<["first_name" := "Nobody"]> ∅) Sample.busy
      = (Ok None, w') /\
    rows w' = Sample.table.
Proof.
  apply (update_missing_id Sample.patch_dump Fixture.hash_password
           Sample.busy 9%N (<["first_name" := "Nobody"]> ∅)
           (UserUpdate.mk None None None (Some (Some "Nobody")) None None));
    reflexivity.
Defined.

Lemma update_applies_patch_witness :
  exists (u' : User.t) (w' : World),
    update Sample.patch_dump Fixture.hash_password 1%N
           (<["email" := "a@x.com"]> (<["password" := "Fresh456!"]> ∅))
           Sample.busy
      = (Ok (Some u'), w') /\
    lookup_id 1%N (rows w') = Some u' /\
    User.email u' = "a@x.com" /\
    User.nickname u' = "a" /\
    User.hashed_password u' = Fixture.hash_password "Fresh456!" /\
    User.is_locked u' = false /\
    (forall j, j <> 1%N ->
               lookup_id j (rows w') = lookup_id j Sample.table).
Proof.
  destruct (update_applies_patch Sample.patch_dump Fixture.hash_password
              Sample.busy 1%N
              (<["email" := "a@x.com"]> (<["password" := "Fresh456!"]> ∅))
              (UserUpdate.mk (Some "a@x.com") None (Some "Fresh456!") None
                             None None)
              Fixture.alice)
    as (u' & w' & U & Hl & He & Hn & Hh & _ & Hk & _ & _ & _ & Hother);
    try reflexivity.
  exists u', w'. auto 10.
Defined.

Lemma create_leaves_account_unverifiable_witness :
  exists (u : User.t) (w' : World),
    create Fixture.model_dump Fixture.hash_password
           (Fixture.signup "dave@x.com" "dave" "Dave12345!")
           outbox_email_service Sample.busy
      = (Ok (Some u), w') /\
    (forall token : string,
        exists w'' : World,
          verify_email_with_token (User.id u) token w' = (Ok false, w'') /\
          rows w'' = rows w') /\
    (forall password : string,
        exists w'' : World,
          login_user Fixture.verify_password 3 "dave@x.com" password w'
            = (Ok None, w'') /\
          rows w'' = rows w').
Proof.
  apply (create_leaves_account_unverifiable Fixture.model_dump
           Fixture.hash_password Fixture.verify_password 3 Sample.busy
           (Fixture.signup "dave@x.com" "dave" "Dave12345!")
           outbox_email_service
           (UserCreate.mk "dave@x.com" "dave" "Dave12345!" None None
                          ANONYMOUS)); reflexivity.
Defined.

Lemma verify_then_login_witness :
  exists (w0 w1 : World) (u2 : User.t) (w2 : World),
    login_user Fixture.verify_password 3 "bob@x.com" "Hunter2222!"
               Sample.busy
      = (Ok None, w0) /\
    rows w0 = Sample.table /\
    verify_email_with_token 2%N "tok-bob" w0 = (Ok true, w1) /\
    login_user Fixture.verify_password 3 "bob@x.com" "Hunter2222!" w1
      = (Ok (Some u2), w2) /\
    User.id u2 = 2%N /\
    User.email_verified u2 = true.
Proof.
  apply (verify_then_login Fixture.verify_password 3 Sample.busy
           "tok-bob" "Hunter2222!" Fixture.bob); reflexivity.
Defined.

Lemma update_lost_write_reported_as_success_witness :
  exists w',
    update Sample.patch_dump Fixture.hash_password 1%N
           (<["password" := "Fresh456!"]> ∅)
           (Fixture.world Sample.table [Fixture.broken])
      = (Ok (Some Fixture.alice), w') /\
    rows w' = Sample.table /\
    rollbacks w' = 1%nat /\
    log w' = [INFO; ERROR].
Proof.
  apply (update_lost_write_reported_as_success Sample.patch_dump
           Fixture.hash_password
           (Fixture.world Sample.table [Fixture.broken]) 1%N
           (<["password" := "Fresh456!"]> ∅)
           (UserUpdate.mk None None (Some "Fresh456!") None None None)
           Fixture.alice Fixture.broken []); reflexivity.
Defined.
